(** * Configuration management for the Snowflake data pipeline

    A shallow embedding of [scripts/config_manager.py]: the [ConfigManager]
    class, its accessors, its one mutator and [create_default_config].

    Python values are a small dynamically typed universe ([value]); every
    operation the source applies to them ([in], subscripting, [.get],
    item assignment, comparison with a number) is a function into the error
    monad [result], raising the exception CPython raises.

    What the model leaves out:
    - the text of a YAML file: a file is represented by what
      [yaml.safe_load] makes of it, and [yaml.dump] writes a text that loads
      back to the dumped document with the keys of every mapping in sorted
      order (PyYAML sorts keys when it dumps);
    - keys of a mapping of the document other than strings: the source
      annotates [Dict[str, Any]]. The report of the validation is keyed by
      the names of the rules, whatever values they are;
    - values that YAML does not have: the value given to [update_config] is
      one that [yaml.safe_load] can build;
    - what the logger prints. The [logging] module itself is a parameter
      of the model ([logging_module]): which members it has beside the level
      constants, and whether the root logger has handlers already;
    - failures of the operating system on [open];
    - the normalisation of a path: [config_path] is the string form of the
      [Path] the store keeps;
    - what the [__main__] block prints.

    Of [02_delivery/enhanced_streamlit.py], a script of calls into
    Streamlit, pandas and the charting libraries, the one computation of
    its own is modelled: the choice of the scatter plots from the selected
    metrics. *)

From Stdlib Require Import ZArith QArith String Ascii List Bool Sorted.
From stdpp Require Import base option list strings gmap fin_maps.

Set Warnings "-register-all,-clear-no-such-hyp".
Local Open Scope string_scope.
Local Open Scope Z_scope.

(** ** Python values *)

(** A Python [float]: not-a-number, an infinity, or a finite number (every
    finite double is a rational). *)
Inductive pyfloat : Type :=
| FNan
| FInf (negative : bool)
| FFin (q : Q).

(** What [yaml.safe_load] builds. A [dict] keeps its insertion order, so it is
    an association list; [dict_set] below keeps its keys distinct. *)
Inductive value : Type :=
| VNone
| VBool (b : bool)
| VInt (z : Z)
| VFloat (f : pyfloat)
| VStr (s : string)
| VList (items : list value)
| VDict (entries : list (string * value)).

Definition type_name (v : value) : string :=
  match v with
  | VNone => "NoneType"
  | VBool _ => "bool"
  | VInt _ => "int"
  | VFloat _ => "float"
  | VStr _ => "str"
  | VList _ => "list"
  | VDict _ => "dict"
  end.

(** ** Exceptions and the error monad *)

(** An exception with the text the source or CPython gives it; for the
    [KeyError] of a failed subscript that is the [repr] of the key, which is
    how it prints. *)
Inductive exn : Type :=
| FileNotFoundError (msg : string)
| ValueError (msg : string)
| KeyError (msg : string)
| TypeError (msg : string)
| AttributeError (msg : string).

Inductive result (A : Type) : Type :=
| Ok (a : A)
| Raise (e : exn).
Arguments Ok {A} a.
Arguments Raise {A} e.

Definition bind {A B : Type} (m : result A) (f : A -> result B) : result B :=
  match m with
  | Ok a => f a
  | Raise e => Raise e
  end.

Notation "x <- m ;; k" := (bind m (fun x => k))
  (at level 100, m at next level, right associativity).

Definition raises {A : Type} (m : result A) : Prop :=
  match m with
  | Ok _ => False
  | Raise _ => True
  end.

(** ** Dictionaries *)

Section dict.
Context {A : Type}.

Fixpoint dict_get (k : string) (d : list (string * A)) : option A :=
  match d with
  | [] => None
  | (k', v) :: rest => if String.eqb k' k then Some v else dict_get k rest
  end.

(** [d[k] = v]: the entry is replaced where it stands, or appended. *)
Fixpoint dict_set (k : string) (v : A) (d : list (string * A)) : list (string * A) :=
  match d with
  | [] => [(k, v)]
  | (k', v') :: rest =>
      if String.eqb k' k then (k, v) :: rest else (k', v') :: dict_set k v rest
  end.

Definition dict_mem (k : string) (d : list (string * A)) : bool :=
  match dict_get k d with
  | Some _ => true
  | None => false
  end.

Definition dict_keys (d : list (string * A)) : list string := map fst d.
End dict.

(** ** Strings *)

(** [needle in haystack] on two [str]. *)
Fixpoint is_substring (needle haystack : string) : bool :=
  String.prefix needle haystack ||
  match haystack with
  | EmptyString => false
  | String _ rest => is_substring needle rest
  end.

Definition lower_ascii (c : ascii) : ascii :=
  let n := nat_of_ascii c in
  if ((65 <=? n) && (n <=? 90))%nat then ascii_of_nat (n + 32) else c.

(** [s.lower()], on ASCII. *)
Fixpoint lower (s : string) : string :=
  match s with
  | EmptyString => EmptyString
  | String c rest => String (lower_ascii c) (lower rest)
  end.

Fixpoint drop_chars (n : nat) (s : string) : string :=
  match n, s with
  | O, _ => s
  | S n', String _ rest => drop_chars n' rest
  | S _, EmptyString => EmptyString
  end.

(** [s.replace(old, new)] for a non-empty [old]: occurrences are replaced
    from the left and do not overlap. [fuel] bounds the scan and is the
    length of [s] plus one. *)
Fixpoint replace_go (fuel : nat) (old new s : string) : string :=
  match fuel with
  | O => s
  | S fuel' =>
      match s with
      | EmptyString => EmptyString
      | String c rest =>
          if String.prefix old s
          then new ++ replace_go fuel' old new (drop_chars (String.length old) s)
          else String c (replace_go fuel' old new rest)
      end
  end.

Definition replace (old new s : string) : string :=
  replace_go (S (String.length s)) old new s.

(** [repr] of a [str] without quotes, backslashes or control characters, and
    of a list of such. *)
Definition repr_str (s : string) : string := "'" ++ s ++ "'".

Fixpoint join (sep : string) (l : list string) : string :=
  match l with
  | [] => ""
  | [s] => s
  | s :: rest => s ++ sep ++ join sep rest
  end.

Definition repr_list (l : list string) : string :=
  "[" ++ join ", " (map repr_str l) ++ "]".

(** ** Operations on values *)

(** [key in container], for a [str] key. *)
Definition py_in (key : string) (container : value) : result bool :=
  match container with
  | VDict entries => Ok (dict_mem key entries)
  | VList items =>
      Ok (existsb (fun item => match item with
                               | VStr s => String.eqb s key
                               | _ => false
                               end) items)
  | VStr s => Ok (is_substring key s)
  | _ => Raise (TypeError ("argument of type '" ++ type_name container ++ "' is not iterable"))
  end.

(** [container[key]], for a [str] key. *)
Definition py_getitem (container : value) (key : string) : result value :=
  match container with
  | VDict entries =>
      match dict_get key entries with
      | Some v => Ok v
      | None => Raise (KeyError (repr_str key))
      end
  | VList _ => Raise (TypeError "list indices must be integers or slices, not str")
  | VStr _ => Raise (TypeError "string indices must be integers, not 'str'")
  | _ => Raise (TypeError ("'" ++ type_name container ++ "' object is not subscriptable"))
  end.

(** [container.get(key, default)]: only a [dict] has the method. *)
Definition py_get (container : value) (key : string) (default : value) : result value :=
  match container with
  | VDict entries => Ok (from_option id default (dict_get key entries))
  | _ => Raise (AttributeError ("'" ++ type_name container ++ "' object has no attribute 'get'"))
  end.

(** [container[key] = v], for a [str] key. *)
Definition py_setitem (container : value) (key : string) (v : value) : result value :=
  match container with
  | VDict entries => Ok (VDict (dict_set key v entries))
  | VList _ => Raise (TypeError "list indices must be integers or slices, not str")
  | _ => Raise (TypeError ("'" ++ type_name container ++ "' object does not support item assignment"))
  end.

(** [for x in container]: the items of a list, the keys of a dict, the
    characters of a str. *)
Definition py_iter (container : value) : result (list value) :=
  match container with
  | VList items => Ok items
  | VDict entries => Ok (map VStr (dict_keys entries))
  | VStr s => Ok (map (fun c => VStr (String c EmptyString)) (list_ascii_of_string s))
  | _ => Raise (TypeError ("'" ++ type_name container ++ "' object is not iterable"))
  end.

(** [v == s] for a [str] literal [s]. *)
Definition py_eq_str (v : value) (s : string) : bool :=
  match v with
  | VStr s' => String.eqb s' s
  | _ => false
  end.

(** Numbers as the comparison operators see them: [bool] is a subclass of
    [int]. *)
Inductive number : Type :=
| NInt (z : Z)
| NFloat (f : pyfloat).

Definition as_number (v : value) : option number :=
  match v with
  | VBool b => Some (NInt (if b then 1 else 0))
  | VInt z => Some (NInt z)
  | VFloat f => Some (NFloat f)
  | _ => None
  end.

(** Comparison of an [int] with a number is exact; every comparison with
    not-a-number is false. *)
Definition int_le_number (a : Z) (n : number) : bool :=
  match n with
  | NInt z => a <=? z
  | NFloat FNan => false
  | NFloat (FInf negative) => negb negative
  | NFloat (FFin q) => Qle_bool (inject_Z a) q
  end.

Definition number_le_int (n : number) (b : Z) : bool :=
  match n with
  | NInt z => z <=? b
  | NFloat FNan => false
  | NFloat (FInf negative) => negative
  | NFloat (FFin q) => Qle_bool q (inject_Z b)
  end.

Definition number_lt_int (n : number) (b : Z) : bool :=
  match n with
  | NInt z => z <? b
  | NFloat FNan => false
  | NFloat (FInf negative) => negative
  | NFloat (FFin q) => negb (Qle_bool (inject_Z b) q)
  end.

Definition not_supported (op : string) (left right : string) : exn :=
  TypeError ("'" ++ op ++ "' not supported between instances of '" ++ left
             ++ "' and '" ++ right ++ "'").

(** [a <= v <= b] for [int] literals [a], [b]: a chained comparison, the
    second half evaluated only when the first holds. *)
Definition py_between (a : Z) (v : value) (b : Z) : result bool :=
  match as_number v with
  | Some n => Ok (int_le_number a n && number_le_int n b)
  | None => Raise (not_supported "<=" "int" (type_name v))
  end.

(** [v < b] for an [int] literal [b]. *)
Definition py_lt_int (v : value) (b : Z) : result bool :=
  match as_number v with
  | Some n => Ok (number_lt_int n b)
  | None => Raise (not_supported "<" (type_name v) "int")
  end.

(** ** Files, environment, logging levels *)

(** A file is what [yaml.safe_load] makes of its text: a document, or a
    [yaml.YAMLError] with its description. *)
Inductive file : Type :=
| YamlFile (document : value)
| Unparsable (problem : string).

(** What [getattr(logging, attr)] can return, as far as [basicConfig] tells
    the objects apart: an [int] (a [bool] is one), a [str], [None], or any
    other object (a function, a class, a module, a [float]). *)
Inductive attribute : Type :=
| AInt (n : Z)
| AStr (s : string)
| ANone
| AObject.

(** The [logging] module as the constructor meets it. Its members beside
    the level constants depend on the Python at hand and on what has been
    imported, and [basicConfig] does nothing at all when the root logger has
    handlers already: both are given, not assumed. *)
Record logging_module : Type :=
  { members : string -> option attribute;
    root_has_handlers : bool }.

(** The level constants of the module; [_nameToLevel] knows the same
    names. *)
Definition level_constant (attr : string) : option Z :=
  if String.eqb attr "CRITICAL" then Some 50
  else if String.eqb attr "FATAL" then Some 50
  else if String.eqb attr "ERROR" then Some 40
  else if String.eqb attr "WARNING" then Some 30
  else if String.eqb attr "WARN" then Some 30
  else if String.eqb attr "INFO" then Some 20
  else if String.eqb attr "DEBUG" then Some 10
  else if String.eqb attr "NOTSET" then Some 0
  else None.

(** [getattr(logging, attr)]: the member of that name, [None] here when the
    module has none and [getattr] raises [AttributeError]. *)
Definition logging_getattr (logmod : logging_module) (attr : string) : option attribute :=
  match level_constant attr with
  | Some level => Some (AInt level)
  | None => members logmod attr
  end.

(** [logging._checkLevel], through which [root.setLevel] takes its
    argument: an [int] as it is, a [str] when it is the name of a level.
    The messages are CPython's up to the [repr] of the argument: that of a
    plain string is [repr_str], that of another object is left out. *)
Definition _checkLevel (level : attribute) : result unit :=
  match level with
  | AInt _ => Ok tt
  | AStr s =>
      match level_constant s with
      | Some _ => Ok tt
      | None => Raise (ValueError ("Unknown level: " ++ repr_str s))
      end
  | _ => Raise (TypeError "Level not an integer or a valid string")
  end.

(** [logging.basicConfig(level=level, format=...)]: nothing when the root
    logger has handlers; otherwise a handler is installed and, unless
    [level] is [None], [root.setLevel(level)] is called. *)
Definition basicConfig (logmod : logging_module) (level : attribute) : result unit :=
  if root_has_handlers logmod then Ok tt
  else match level with
       | ANone => Ok tt
       | _ => _checkLevel level
       end.

(** [os.getenv(param)]: the value of the variable, or [None]. *)
Definition os_getenv (env : gmap string string) (param : string) : option string :=
  env !! param.

(** ** The dataclasses *)

Module DatabaseConfig.
Record t : Type := { name : value; schemas : value }.
End DatabaseConfig.

Module DataQualityRule.
Record t : Type :=
  { name : value; type : value; threshold : value; critical : value; rules : value }.
End DataQualityRule.

Module PipelineStage.
Record t : Type :=
  { batch_size : value;
    parallel_workers : value;
    error_handling : value;
    warehouse_size : value;
    timeout_minutes : value;
    auto_suspend_minutes : value;
    export_formats : value;
    compression : value }.

Definition fields : list string :=
  [ "batch_size"; "parallel_workers"; "error_handling"; "warehouse_size";
    "timeout_minutes"; "auto_suspend_minutes"; "export_formats"; "compression" ].

Definition is_field (k : string) : bool := existsb (String.eqb k) fields.

(** The dataclass called with a mapping unpacked into keyword arguments:
    the generated [__init__] takes the eight fields by keyword, each
    defaulting to [None], and nothing else. *)
Definition init (kwargs : value) : result t :=
  match kwargs with
  | VDict entries =>
      match find (fun k => negb (is_field k)) (dict_keys entries) with
      | Some k =>
          Raise (TypeError ("PipelineStage.__init__() got an unexpected keyword argument "
                            ++ repr_str k))
      | None =>
          let field k := from_option id VNone (dict_get k entries) in
          Ok {| batch_size := field "batch_size";
                parallel_workers := field "parallel_workers";
                error_handling := field "error_handling";
                warehouse_size := field "warehouse_size";
                timeout_minutes := field "timeout_minutes";
                auto_suspend_minutes := field "auto_suspend_minutes";
                export_formats := field "export_formats";
                compression := field "compression" |}
      end
  | _ =>
      Raise (TypeError ("PipelineStage() argument after ** must be a mapping, not "
                        ++ type_name kwargs))
  end.
End PipelineStage.

(** ** ConfigManager *)

Record ConfigManager : Type := { config_path : string; config : value }.

Definition required_sections : list string :=
  [ "database"; "data_sources"; "data_quality"; "pipeline" ].

Fixpoint check_sections (sections : list string) (config : value) : result unit :=
  match sections with
  | [] => Ok tt
  | section :: rest =>
      present <- py_in section config;;
      if present then check_sections rest config
      else Raise (ValueError ("Missing required configuration section: " ++ section))
  end.

Definition _validate_config (config : value) : result unit :=
  check_sections required_sections config.

(** The [try] catches [FileNotFoundError] and [yaml.YAMLError] only; what
    [_validate_config] raises passes through. *)
Definition _load_config (fs : gmap string file) (config_path : string) : result value :=
  match fs !! config_path with
  | None => Raise (FileNotFoundError ("Configuration file not found: " ++ config_path))
  | Some (Unparsable problem) =>
      Raise (ValueError ("Invalid YAML syntax in config file: " ++ problem))
  | Some (YamlFile config) => _ <- _validate_config config;; Ok config
  end.

(** The object handed to [logging.basicConfig] as the level. *)
Definition _setup_logging (logmod : logging_module) (config : value) : result attribute :=
  pipeline <- py_get config "pipeline" (VDict []);;
  logging <- py_get pipeline "logging" (VDict []);;
  log_level <- py_get logging "level" (VStr "INFO");;
  match log_level with
  | VStr attr =>
      match logging_getattr logmod attr with
      | Some level => _ <- basicConfig logmod level;; Ok level
      | None => Raise (AttributeError ("module 'logging' has no attribute " ++ repr_str attr))
      end
  | _ => Raise (TypeError ("attribute name must be string, not '" ++ type_name log_level ++ "'"))
  end.

(** [ConfigManager(config_path)]. *)
Definition __init__ (logmod : logging_module) (fs : gmap string file) (config_path : string)
  : result ConfigManager :=
  config <- _load_config fs config_path;;
  _ <- _setup_logging logmod config;;
  Ok {| config_path := config_path; config := config |}.

Definition get_database_config (self : ConfigManager) : result DatabaseConfig.t :=
  db_config <- py_getitem (config self) "database";;
  name <- py_getitem db_config "name";;
  schemas <- py_getitem db_config "schemas";;
  Ok {| DatabaseConfig.name := name; DatabaseConfig.schemas := schemas |}.

Definition get_data_source_config (self : ConfigManager) (source_name : string) : result value :=
  data_sources <- py_get (config self) "data_sources" (VDict []);;
  present <- py_in source_name data_sources;;
  if negb present
  then Raise (KeyError ("Data source '" ++ source_name ++ "' not found in configuration"))
  else py_getitem data_sources source_name.

Definition make_rule (rule_config : value) : result DataQualityRule.t :=
  name <- py_getitem rule_config "name";;
  type <- py_getitem rule_config "type";;
  threshold <- py_getitem rule_config "threshold";;
  critical <- py_getitem rule_config "critical";;
  rules <- py_get rule_config "rules" VNone;;
  Ok {| DataQualityRule.name := name;
        DataQualityRule.type := type;
        DataQualityRule.threshold := threshold;
        DataQualityRule.critical := critical;
        DataQualityRule.rules := rules |}.

Fixpoint make_rules (rules_config : list value) : result (list DataQualityRule.t) :=
  match rules_config with
  | [] => Ok []
  | rule_config :: rest =>
      rule <- make_rule rule_config;;
      rules <- make_rules rest;;
      Ok (rule :: rules)
  end.

Definition get_data_quality_rules (self : ConfigManager) : result (list DataQualityRule.t) :=
  quality_config <- py_get (config self) "data_quality" (VDict []);;
  rules_config <- py_get quality_config "validation_rules" (VList []);;
  items <- py_iter rules_config;;
  make_rules items.

Definition get_pipeline_stage_config (self : ConfigManager) (stage_name : string)
  : result PipelineStage.t :=
  pipeline_config <- py_get (config self) "pipeline" (VDict []);;
  stages_config <- py_get pipeline_config "stages" (VDict []);;
  present <- py_in stage_name stages_config;;
  if negb present
  then Raise (KeyError ("Pipeline stage '" ++ stage_name ++ "' not found in configuration"))
  else
    stage_config <- py_getitem stages_config stage_name;;
    PipelineStage.init stage_config.

Definition required_params : list string :=
  [ "SNOWFLAKE_ACCOUNT"; "SNOWFLAKE_USER"; "SNOWFLAKE_PASSWORD";
    "SNOWFLAKE_WAREHOUSE"; "SNOWFLAKE_ROLE" ].

Definition param_key (param : string) : string := replace "snowflake_" "" (lower param).

(** The loop over [required_params]: every variable is looked at, and lands
    either in [connection_params] or at the end of [missing_params].
    [if value:] is false for [None] and for the empty string. *)
Fixpoint collect_params (env : gmap string string) (params : list string)
    (connection_params : gmap string value) (missing_params : list string)
  : gmap string value * list string :=
  match params with
  | [] => (connection_params, missing_params)
  | param :: rest =>
      match os_getenv env param with
      | Some v =>
          if String.eqb v ""
          then collect_params env rest connection_params (missing_params ++ [param])
          else collect_params env rest (<[param_key param := VStr v]> connection_params)
                 missing_params
      | None => collect_params env rest connection_params (missing_params ++ [param])
      end
  end.

Definition get_snowflake_connection_params (self : ConfigManager) (env : gmap string string)
  : result (gmap string value) :=
  let '(connection_params, missing_params) := collect_params env required_params ∅ [] in
  match missing_params with
  | _ :: _ =>
      Raise (ValueError ("Missing required environment variables: " ++ repr_list missing_params))
  | [] =>
      db_config <- get_database_config self;;
      Ok (<["database" := DatabaseConfig.name db_config]> connection_params)
  end.

Definition get_streamlit_config (self : ConfigManager) : result value :=
  py_get (config self) "streamlit" (VDict []).

Definition get_monitoring_config (self : ConfigManager) : result value :=
  py_get (config self) "monitoring" (VDict []).

(** Entries sorted by key, as [sorted] does it: an entry goes before the
    first one whose key is not smaller, so equal keys keep their order. *)
Fixpoint insert_entry {A : Type} (k : string) (v : A) (sorted : list (string * A))
  : list (string * A) :=
  match sorted with
  | [] => [(k, v)]
  | (k', v') :: rest =>
      if String.leb k k' then (k, v) :: sorted else (k', v') :: insert_entry k v rest
  end.

Definition sort_entries {A : Type} (entries : list (string * A)) : list (string * A) :=
  fold_right (fun entry sorted => insert_entry (fst entry) (snd entry) sorted) [] entries.

(** A document as it comes back from a file [yaml.dump] wrote: the keys of
    every mapping in sorted order, the sequences in their own order, the
    scalars as they were. *)
Fixpoint sort_keys (v : value) : value :=
  match v with
  | VList items => VList (map sort_keys items)
  | VDict entries =>
      VDict (sort_entries (map (fun entry => (fst entry, sort_keys (snd entry))) entries))
  | _ => v
  end.

(** [yaml.dump(document, file, default_flow_style=False, indent=2)]. *)
Definition yaml_dump (document : value) : file := YamlFile (sort_keys document).

(** [yaml.dump] of the whole document over the file at [config_path]. *)
Definition _save_config (self : ConfigManager) (fs : gmap string file) : gmap string file :=
  <[config_path self := yaml_dump (config self)]> fs.

(** The section's mapping is changed in place, so the document holds the
    changed mapping: the last [py_setitem] puts it back where it was read. *)
Definition update_config (self : ConfigManager) (fs : gmap string file)
    (section key : string) (v : value) : result (ConfigManager * gmap string file) :=
  present <- py_in section (config self);;
  config1 <- (if negb present then py_setitem (config self) section (VDict [])
              else Ok (config self));;
  entries <- py_getitem config1 section;;
  entries' <- py_setitem entries key v;;
  config2 <- py_setitem config1 section entries';;
  let self' := {| config_path := config_path self; config := config2 |} in
  Ok (self', _save_config self' fs).

(** The body of the loop of [validate_data_quality_thresholds] up to the
    assignment: the value of [is_valid]. [and] evaluates the comparison only
    for a rule of the type it guards. *)
Definition is_valid (rule : DataQualityRule.t) : result bool :=
  let out_of_range (type : string) : result bool :=
    if py_eq_str (DataQualityRule.type rule) type
    then inside <- py_between 0 (DataQualityRule.threshold rule) 100;; Ok (negb inside)
    else Ok false in
  bad_completeness <- out_of_range "completeness";;
  if bad_completeness then Ok false
  else
    bad_uniqueness <- out_of_range "uniqueness";;
    if bad_uniqueness then Ok false
    else
      bad_timeliness <-
        (if py_eq_str (DataQualityRule.type rule) "timeliness"
         then py_lt_int (DataQualityRule.threshold rule) 0
         else Ok false);;
      if bad_timeliness then Ok false else Ok true.

(** Equality of two numbers, exact as in Python: [1 == 1.0 == True], and
    not-a-number equals nothing. *)
Definition number_eqb (a b : number) : bool :=
  match a, b with
  | NInt x, NInt y => x =? y
  | NInt x, NFloat (FFin q) => Qeq_bool (inject_Z x) q
  | NFloat (FFin q), NInt x => Qeq_bool q (inject_Z x)
  | NFloat (FFin p), NFloat (FFin q) => Qeq_bool p q
  | NFloat (FInf s), NFloat (FInf t) => Bool.eqb s t
  | _, _ => false
  end.

(** Whether two hashable values are the same key of a [dict]: equal
    numbers, equal strings, [None] and [None]. A not-a-number equals no
    key: two of them loaded from a file are two objects. *)
Definition key_eqb (a b : value) : bool :=
  match as_number a, as_number b with
  | Some x, Some y => number_eqb x y
  | None, None =>
      match a, b with
      | VStr s, VStr t => String.eqb s t
      | VNone, VNone => true
      | _, _ => false
      end
  | _, _ => false
  end.

(** A [dict] whose keys are any hashable values: [d[key] = x] replaces the
    value under the key that is there, which stays, or appends. *)
Fixpoint pydict_set {A : Type} (key : value) (x : A) (d : list (value * A))
  : list (value * A) :=
  match d with
  | [] => [(key, x)]
  | (k, y) :: rest =>
      if key_eqb k key then (k, x) :: rest else (k, y) :: pydict_set key x rest
  end.

Fixpoint pydict_get {A : Type} (key : value) (d : list (value * A)) : option A :=
  match d with
  | [] => None
  | (k, y) :: rest => if key_eqb k key then Some y else pydict_get key rest
  end.

(** The key of [validation_results[rule.name]]: the name itself, which has
    to be hashable. *)
Definition rule_key (name : value) : result value :=
  match name with
  | VList _ | VDict _ => Raise (TypeError ("unhashable type: '" ++ type_name name ++ "'"))
  | _ => Ok name
  end.

Fixpoint validate_rules (rules : list DataQualityRule.t)
    (validation_results : list (value * bool)) : result (list (value * bool)) :=
  match rules with
  | [] => Ok validation_results
  | rule :: rest =>
      valid <- is_valid rule;;
      key <- rule_key (DataQualityRule.name rule);;
      validate_rules rest (pydict_set key valid validation_results)
  end.

Definition validate_data_quality_thresholds (self : ConfigManager)
  : result (list (value * bool)) :=
  rules <- get_data_quality_rules self;;
  validate_rules rules [].

(** ** The default document *)

Definition default_entries : list (string * value) :=
    [ ("database",
        VDict [ ("name", VStr "TASTY_BYTES");
                ("schemas", VDict [ ("raw", VStr "RAW_DATA");
                                    ("harmonized", VStr "HARMONIZED");
                                    ("analytics", VStr "ANALYTICS") ]) ]);
      ("data_sources",
        VDict [ ("weather_data",
                  VDict [ ("table", VStr "weather_hamburg");
                          ("schema", VStr "harmonized");
                          ("refresh_frequency", VStr "daily");
                          ("retention_days", VInt 365) ]) ]);
      ("data_quality",
        VDict [ ("validation_rules",
                  VList [ VDict [ ("name", VStr "null_check");
                                  ("type", VStr "completeness");
                                  ("threshold", VInt 95);
                                  ("critical", VBool true) ] ]) ]);
      ("pipeline",
        VDict [ ("stages",
                  VDict [ ("ingestion",
                            VDict [ ("batch_size", VInt 10000);
                                    ("parallel_workers", VInt 4) ]) ]);
                ("logging", VDict [ ("level", VStr "INFO") ]) ]) ].

Definition default_config : value := VDict default_entries.

Definition create_default_config (fs : gmap string file) (output_path : string)
  : gmap string file :=
  <[output_path := yaml_dump default_config]> fs.

(** ** Vocabulary of the statements *)

(** The first required section the document lacks, in the order the loop of
    [_validate_config] visits them. *)
Definition first_missing (entries : list (string * value)) : option string :=
  List.find (fun section => negb (dict_mem section entries)) required_sections.

(** A small document with the four sections, its [pipeline] section left
    open. *)
Definition document_with_pipeline (pipeline : value) : value :=
  VDict [ ("database", VDict [ ("name", VStr "TASTY_BYTES"); ("schemas", VDict []) ]);
          ("data_sources", VDict []);
          ("data_quality", VDict []);
          ("pipeline", pipeline) ].

Definition logging_at (level : string) : value :=
  VDict [ ("logging", VDict [ ("level", VStr level) ]) ].

(** The [logging] module of a CPython 3.11 in which nothing has been
    configured yet: its members beside the level constants, by kind. The
    examples below are run against it. *)
Definition cpython_flags : list string :=
  [ "logMultiprocessing"; "logProcesses"; "logThreads"; "raiseExceptions" ].

Definition cpython_strings : list (string * string) :=
  [ ("BASIC_FORMAT", "%(levelname)s:%(name)s:%(message)s");
    ("__author__", "Vinay Sajip <vinay_sajip@red-dove.com>");
    ("__cached__", "/usr/lib/python3.11/logging/__pycache__/__init__.cpython-311.pyc");
    ("__date__", "07 February 2010");
    ("__doc__", "
Logging package for Python. Based on PEP 282 and comments thereto in
comp.lang.python.

Copyright (C) 2001-2019 Vinay Sajip. All Rights Reserved.

To use, simply 'import logging' and log away!
");
    ("__file__", "/usr/lib/python3.11/logging/__init__.py");
    ("__name__", "logging");
    ("__package__", "logging");
    ("__status__", "production");
    ("__version__", "0.5.1.2");
    ("_srcfile", "/usr/lib/python3.11/logging/__init__.py") ].

Definition cpython_objects : list string :=
  [
    "BufferingFormatter"; "FileHandler"; "Filter"; "Filterer"; "Formatter";
    "GenericAlias"; "Handler"; "LogRecord"; "Logger"; "LoggerAdapter"; "Manager";
    "NullHandler"; "PercentStyle"; "PlaceHolder"; "RootLogger"; "StrFormatStyle";
    "StreamHandler"; "StringTemplateStyle"; "Template"; "_STYLES"; "_StderrHandler";
    "__all__"; "__builtins__"; "__loader__"; "__path__"; "__spec__"; "_acquireLock";
    "_addHandlerRef"; "_after_at_fork_child_reinit_locks";
    "_at_fork_reinit_lock_weakset"; "_checkLevel"; "_defaultFormatter";
    "_defaultLastResort"; "_handlerList"; "_handlers"; "_is_internal_frame";
    "_levelToName"; "_lock"; "_logRecordFactory"; "_loggerClass"; "_nameToLevel";
    "_register_at_fork_reinit_lock"; "_releaseLock"; "_removeHandlerRef";
    "_showwarning"; "_startTime"; "_str_formatter"; "addLevelName"; "atexit";
    "basicConfig"; "captureWarnings"; "collections"; "critical"; "currentframe";
    "debug"; "disable"; "error"; "exception"; "fatal"; "getLevelName";
    "getLevelNamesMapping"; "getLogRecordFactory"; "getLogger"; "getLoggerClass";
    "info"; "io"; "lastResort"; "log"; "makeLogRecord"; "os"; "re"; "root";
    "setLogRecordFactory"; "setLoggerClass"; "shutdown"; "sys"; "threading"; "time";
    "traceback"; "warn"; "warning"; "warnings"; "weakref" ].

Definition cpython_members (attr : string) : option attribute :=
  if existsb (String.eqb attr) cpython_flags then Some (AInt 1)
  else match dict_get attr cpython_strings with
       | Some s => Some (AStr s)
       | None =>
           if String.eqb attr "_warnings_showwarning" then Some ANone
           else if existsb (String.eqb attr) cpython_objects then Some AObject
           else None
       end.

Definition cpython_logging : logging_module :=
  {| members := cpython_members; root_has_handlers := false |}.

(** A variable is unset for [get_snowflake_connection_params] when
    [os.getenv] gives [None] or the empty string. *)
Definition is_unset (env : gmap string string) (param : string) : bool :=
  match os_getenv env param with
  | Some v => String.eqb v ""
  | None => true
  end.

Definition missing_variables (env : gmap string string) : list string :=
  List.filter (is_unset env) required_params.

(** The entries the loop has put into [connection_params] after [params]. *)
Definition collected (env : gmap string string) (params : list string)
    (connection_params : gmap string value) : gmap string value :=
  fold_left (fun acc param =>
               match os_getenv env param with
               | Some v => if String.eqb v "" then acc else <[param_key param := VStr v]> acc
               | None => acc
               end) params connection_params.

(** An environment with the five variables set. *)
Definition example_env : gmap string string :=
  {[ "SNOWFLAKE_ACCOUNT" := "xy12345"; "SNOWFLAKE_USER" := "etl";
     "SNOWFLAKE_PASSWORD" := "secret"; "SNOWFLAKE_WAREHOUSE" := "COMPUTE_WH";
     "SNOWFLAKE_ROLE" := "SYSADMIN" ]}.

(** The threshold invariant as the data model words it: for completeness and
    uniqueness [0 <= threshold <= 100], for timeliness [threshold >= 0]; no
    bound on a rule of another type. Not-a-number satisfies no bound. *)
Definition threshold_invariant (type : value) (threshold : number) : bool :=
  if py_eq_str type "completeness" || py_eq_str type "uniqueness"
  then int_le_number 0 threshold && number_le_int threshold 100
  else if py_eq_str type "timeliness" then int_le_number 0 threshold
  else true.

(** A rule as the dataclass declares it: a [str] for a name, a number for a
    threshold. *)
Definition well_typed_rule (rule : DataQualityRule.t) : bool :=
  match DataQualityRule.name rule, as_number (DataQualityRule.threshold rule) with
  | VStr _, Some _ => true
  | _, _ => false
  end.

(** The last rule of that name, in document order. *)
Definition last_named (name : string) (rules : list DataQualityRule.t)
  : option DataQualityRule.t :=
  List.find (fun rule => py_eq_str (DataQualityRule.name rule) name) (rev rules).

Definition document_with_rules (rules : list value) : value :=
  VDict [ ("database", VDict [ ("name", VStr "TASTY_BYTES"); ("schemas", VDict []) ]);
          ("data_sources", VDict []);
          ("data_quality", VDict [ ("validation_rules", VList rules) ]);
          ("pipeline", VDict []) ].

Definition rule_record (name type : string) (threshold : value) : value :=
  VDict [ ("name", VStr name); ("type", VStr type); ("threshold", threshold);
          ("critical", VBool true) ].

(** Two rules named [null_check] around a third one: the first is out of
    range, the last is in range. *)
Definition store_with_duplicates : ConfigManager :=
  {| config_path := "config.yaml";
     config := document_with_rules
                 [ rule_record "null_check" "completeness" (VInt 150);
                   rule_record "row_count" "uniqueness" (VInt 100);
                   rule_record "null_check" "completeness" (VInt 95) ] |}.

(** One timeliness rule with not-a-number for a threshold ([.nan] in YAML). *)
Definition nan_timeliness_document : value :=
  document_with_rules [ rule_record "freshness" "timeliness" (VFloat FNan) ].

(** The mapping stored under a section before an update: empty when the
    section is absent. *)
Definition stored_section (section : string) (entries : list (string * value))
  : list (string * value) :=
  match dict_get section entries with
  | Some (VDict stored) => stored
  | _ => []
  end.

(** A [config.yaml] written by hand with the entries of the default
    document in the order of the source, and the store constructed from
    it. *)
Definition default_files : gmap string file := {[ "config.yaml" := YamlFile default_config ]}.

Definition default_store : ConfigManager :=
  {| config_path := "config.yaml"; config := default_config |}.

(** ** The summary and the example run *)

(** [list(container.keys())]: only a [dict] has the method. *)
Definition py_keys (container : value) : result (list string) :=
  match container with
  | VDict entries => Ok (dict_keys entries)
  | _ => Raise (AttributeError ("'" ++ type_name container ++ "' object has no attribute 'keys'"))
  end.

(** The entries of the returned [dict], in the order of the display; the
    values are computed in that order too. *)
Definition get_config_summary (self : ConfigManager) : result (list (string * value)) :=
  db_config <- get_database_config self;;
  data_sources <- py_get (config self) "data_sources" (VDict []);;
  source_names <- py_keys data_sources;;
  rules <- get_data_quality_rules self;;
  pipeline <- py_get (config self) "pipeline" (VDict []);;
  stages <- py_get pipeline "stages" (VDict []);;
  stage_names <- py_keys stages;;
  monitoring <- py_get (config self) "monitoring" (VDict []);;
  enabled <- py_get monitoring "enabled" (VBool false);;
  Ok [ ("database", DatabaseConfig.name db_config);
       ("data_sources", VList (map VStr source_names));
       ("data_quality_rules", VInt (Z.of_nat (length rules)));
       ("pipeline_stages", VList (map VStr stage_names));
       ("monitoring_enabled", enabled);
       ("config_file", VStr (config_path self)) ].

(** The body of the [try] of the [__main__] block: the summary and the
    validation results it prints. *)
Definition example_usage (logmod : logging_module) (fs : gmap string file)
  : result (list (string * value) * list (value * bool)) :=
  config_manager <- __init__ logmod fs "config.yaml";;
  summary <- get_config_summary config_manager;;
  validation_results <- validate_data_quality_thresholds config_manager;;
  Ok (summary, validation_results).

(** The [__main__] block, as a change of the file system: [except Exception]
    catches whatever the [try] raises and writes the default document. *)
Definition main (logmod : logging_module) (fs : gmap string file) : gmap string file :=
  match example_usage logmod fs with
  | Ok _ => fs
  | Raise _ => create_default_config fs "config.yaml"
  end.

(** ** Bounds on numbers, for the statements *)

(** [a <= n] and [n <= b] in the order of the numbers: an infinity is beyond
    every integer on its side, not-a-number is in no relation. *)
Definition at_least (a : Z) (n : number) : Prop :=
  match n with
  | NInt z => (a <= z)%Z
  | NFloat (FFin q) => (inject_Z a <= q)%Q
  | NFloat (FInf negative) => negative = false
  | NFloat FNan => False
  end.

Definition at_most (n : number) (b : Z) : Prop :=
  match n with
  | NInt z => (z <= b)%Z
  | NFloat (FFin q) => (q <= inject_Z b)%Q
  | NFloat (FInf negative) => negative = true
  | NFloat FNan => False
  end.

(** The names of a list of rules, those that are strings. *)
Definition rule_names (rules : list DataQualityRule.t) : list string :=
  omap (fun rule => match DataQualityRule.name rule with
                    | VStr name => Some name
                    | _ => None
                    end) rules.

(** The four fields [get_data_quality_rules] reads by subscript. *)
Definition mandatory_rule_fields : list string := [ "name"; "type"; "threshold"; "critical" ].

(** ** The dashboard: which scatter plots are drawn *)

Module enhanced_streamlit.

(** The [dict] of the script, in its order. The degree sign is not ASCII: a
    string is its UTF-8 bytes here, and [replace] on bytes agrees with
    [str.replace] on well-formed UTF-8. *)
Definition weather_metrics : list (string * string) :=
  [ ("Temperature (°F)", "AVG_TEMPERATURE_FAHRENHEIT");
    ("Precipitation (in)", "AVG_PRECIPITATION_INCHES");
    ("Wind Speed (mph)", "MAX_WIND_SPEED_100M_MPH") ].

(** The three chained [replace] calls that take the unit off a label. *)
Definition without_unit (label : string) : string :=
  replace " (mph)" "" (replace " (in)" "" (replace " (°F)" "" label)).

(** The loop of the correlations tab: the metrics, in the order of
    [weather_metrics], for which [px.scatter] is called. *)
Definition scatter_metrics (selected_metrics : list string) : list (string * string) :=
  List.filter
    (fun '(metric_name, metric_col) =>
       existsb (String.eqb (without_unit metric_name)) (map without_unit selected_metrics))
    weather_metrics.

End enhanced_streamlit.

(** A YAML sequence of the four section names, and an empty file. *)
Definition list_of_sections : value :=
  VList [ VStr "database"; VStr "data_sources"; VStr "data_quality"; VStr "pipeline" ].

(** ** Records of the document, for the statements *)

(** The rule a record of [validation_rules] is read as: the record is a
    mapping, its four mandatory fields are taken as they are, and [rules] is
    [None] when the record has none. *)
Definition reads_as (item : value) (rule : DataQualityRule.t) : Prop :=
  exists record,
    item = VDict record /\
    dict_get "name" record = Some (DataQualityRule.name rule) /\
    dict_get "type" record = Some (DataQualityRule.type rule) /\
    dict_get "threshold" record = Some (DataQualityRule.threshold rule) /\
    dict_get "critical" record = Some (DataQualityRule.critical rule) /\
    DataQualityRule.rules rule = from_option id VNone (dict_get "rules" record).

(** A field of a stage record, [None] when the record does not have it. *)
Definition stage_field (record : list (string * value)) (field : string) : value :=
  from_option id VNone (dict_get field record).

(** Two rules, the second without [critical]. *)
Definition rules_with_incomplete : list value :=
  [ rule_record "null_check" "completeness" (VInt 95);
    VDict [ ("name", VStr "row_count"); ("type", VStr "uniqueness"); ("threshold", VInt 100) ] ].

(** The rule types whose threshold [validate_data_quality_thresholds]
    looks at. *)
Definition checked_types : list string := [ "completeness"; "uniqueness"; "timeliness" ].

Definition is_checked (type : value) : bool :=
  existsb (py_eq_str type) checked_types.

(** Documents the constructor accepts although a section is not of the shape
    the accessors expect: a database with no [schemas], [data_sources] left
    empty, [pipeline.stages] left empty. *)
Definition document_without_schemas : value :=
  VDict [ ("database", VDict [ ("name", VStr "TASTY_BYTES") ]);
          ("data_sources", VDict []);
          ("data_quality", VDict []);
          ("pipeline", VDict []) ].

Definition document_with_null_sources : value :=
  VDict [ ("database", VDict [ ("name", VStr "TASTY_BYTES"); ("schemas", VDict []) ]);
          ("data_sources", VNone);
          ("data_quality", VDict []);
          ("pipeline", VDict []) ].

Definition document_with_null_stages : value :=
  document_with_pipeline (VDict [ ("stages", VNone) ]).

(** A stage record with a key that is no field of [PipelineStage]. *)
Definition document_with_extra_field : value :=
  document_with_pipeline
    (VDict [ ("stages",
               VDict [ ("ingestion",
                         VDict [ ("batch_size", VInt 10000); ("retries", VInt 3) ]) ]) ]).

(** ** The report of the validation, for the statements *)

(** A report whose keys are strings, as a report with any keys. *)
Definition str_keys {A : Type} (d : list (string * A)) : list (value * A) :=
  map (fun entry => (VStr (fst entry), snd entry)) d.

(** The entries of a report under [name]: those whose key is equal to it,
    as a lookup compares keys. *)
Definition entries_named {A : Type} (name : value) (report : list (value * A))
  : list (value * A) :=
  List.filter (fun entry => key_eqb (fst entry) name) report.

(** The rational a finite number is, or the infinity it is; nothing for
    not-a-number. *)
Definition number_class (n : number) : option (Q + bool) :=
  match n with
  | NInt z => Some (inl (inject_Z z))
  | NFloat (FFin q) => Some (inl q)
  | NFloat (FInf negative) => Some (inr negative)
  | NFloat FNan => None
  end.

(** Equality of two numbers: the same rational, or the same infinity. *)
Definition number_equal (x y : number) : Prop :=
  match number_class x, number_class y with
  | Some (inl p), Some (inl q) => (p == q)%Q
  | Some (inr s), Some (inr t) => s = t
  | _, _ => False
  end.


(** [n < b] in the order of the numbers. *)
Definition below (n : number) (b : Z) : Prop :=
  match n with
  | NInt z => (z < b)%Z
  | NFloat (FFin q) => (q < inject_Z b)%Q
  | NFloat (FInf negative) => negative = true
  | NFloat FNan => False
  end.

(** What the validation holds a threshold to, by the type of the rule:
    within 0 and 100, both included, for completeness and uniqueness; not
    below 0 for timeliness; nothing for another type. *)
Definition within_bounds (type threshold : value) : Prop :=
  (type = VStr "completeness" \/ type = VStr "uniqueness" ->
   exists n, as_number threshold = Some n /\ at_least 0 n /\ at_most n 100) /\
  (type = VStr "timeliness" ->
   exists n, as_number threshold = Some n /\ ~ below n 0).



(** A value that can be a key of a [dict]: any but a list or a mapping. *)
Definition hashable (name : value) : bool :=
  match name with
  | VList _ | VDict _ => false
  | _ => true
  end.

(** A value the comparison operators take for a number. *)
Definition is_number (v : value) : bool :=
  match as_number v with
  | Some _ => true
  | None => false
  end.


(** The same of a rule already read. *)
Definition rule_reportable (rule : DataQualityRule.t) : bool :=
  hashable (DataQualityRule.name rule)
  && (negb (is_checked (DataQualityRule.type rule))
      || is_number (DataQualityRule.threshold rule)).









(** ** Documents read back from a dumped file, for the statements *)

(** The entries of a mapping as they come back. *)
Definition sorted_entries (entries : list (string * value)) : list (string * value) :=
  sort_entries (map (fun entry => (fst entry, sort_keys (snd entry))) entries).

(** The order [yaml.dump] puts the keys of a mapping in. *)
Definition key_le (a b : string) : Prop := String.leb a b = true.


(** The state of the [logging] module at a later construction: the same
    members, and the root logger has the handlers it had or has got some. *)
Definition later_logging (logmod logmod' : logging_module) : Prop :=
  (forall attr, members logmod' attr = members logmod attr) /\
  (root_has_handlers logmod' = root_has_handlers logmod \/ root_has_handlers logmod' = true).


(** * Properties *)

(** ** Dictionaries *)

Section dict_facts.
Context {A : Type}.
Implicit Types (d : list (string * A)) (k : string) (v : A).

Lemma dict_get_set_eq k v d : dict_get k (dict_set k v d) = Some v.
Proof.
  induction d as [|[k' v'] d IH]; simpl.
  - by rewrite String.eqb_refl.
  - destruct (String.eqb k' k) eqn:E; simpl.
    + by rewrite String.eqb_refl.
    + by rewrite E.
Qed.

Lemma dict_get_set_ne k k' v d : k <> k' -> dict_get k' (dict_set k v d) = dict_get k' d.
Proof.
  intros Hne. induction d as [|[k0 v0] d IH]; simpl.
  - by apply String.eqb_neq in Hne as ->.
  - destruct (String.eqb k0 k) eqn:E; simpl.
    + apply String.eqb_eq in E as ->.
      by apply String.eqb_neq in Hne as ->.
    + by rewrite IH.
Qed.

Lemma dict_get_set k k' v d :
  dict_get k' (dict_set k v d) = if String.eqb k k' then Some v else dict_get k' d.
Proof.
  destruct (String.eqb k k') eqn:E.
  - apply String.eqb_eq in E as <-. apply dict_get_set_eq.
  - apply String.eqb_neq in E. by apply dict_get_set_ne.
Qed.

Lemma dict_mem_set k k' v d :
  dict_mem k' d = true -> dict_mem k' (dict_set k v d) = true.
Proof.
  unfold dict_mem. rewrite dict_get_set.
  destruct (String.eqb k k'); [done|]. by destruct (dict_get k' d).
Qed.

Lemma dict_mem_true k d : dict_mem k d = true <-> is_Some (dict_get k d).
Proof.
  unfold dict_mem. by destruct (dict_get k d).
Qed.

Lemma dict_mem_false k d : dict_mem k d = false <-> dict_get k d = None.
Proof. unfold dict_mem. by destruct (dict_get k d). Qed.
End dict_facts.

Section dict_order.
Context {A : Type}.
Implicit Types (d : list (string * A)) (k : string) (v : A).

Lemma dict_set_set k v v' d : dict_set k v' (dict_set k v d) = dict_set k v' d.
Proof.
  induction d as [|[k0 v0] d IH]; cbn [dict_set].
  - by rewrite String.eqb_refl.
  - destruct (String.eqb k0 k) eqn:E; cbn [dict_set].
    + by rewrite String.eqb_refl.
    + by rewrite E, IH.
Qed.

Lemma dict_keys_set k v d :
  dict_keys (dict_set k v d) =
  if dict_mem k d then dict_keys d else (dict_keys d ++ [k])%list.
Proof.
  unfold dict_mem, dict_keys. induction d as [|[k0 v0] d IH]; cbn [dict_set dict_get map].
  - done.
  - destruct (String.eqb k0 k) eqn:E; cbn [map fst].
    + by apply String.eqb_eq in E as ->.
    + rewrite IH. by destruct (dict_get k d).
Qed.

Lemma dict_keys_In k d : In k (dict_keys d) <-> dict_mem k d = true.
Proof.
  unfold dict_mem, dict_keys. induction d as [|[k0 v0] d IH]; cbn [dict_get map In fst].
  - split; [tauto|discriminate].
  - destruct (String.eqb k0 k) eqn:E.
    + apply String.eqb_eq in E. tauto.
    + apply String.eqb_neq in E. rewrite IH. tauto.
Qed.

Lemma dict_set_NoDup k v d : NoDup (dict_keys d) -> NoDup (dict_keys (dict_set k v d)).
Proof.
  intros Hd. rewrite dict_keys_set. destruct (dict_mem k d) eqn:E; [done|].
  apply NoDup_app. split; [done|]. split; [|apply NoDup_singleton].
  intros x Hx ->%list_elem_of_singleton.
  apply list_elem_of_In, dict_keys_In in Hx. congruence.
Qed.
End dict_order.

(** ** Loading and validation *)

Lemma check_sections_dict sections entries :
  check_sections sections (VDict entries) =
  match List.find (fun section => negb (dict_mem section entries)) sections with
  | Some section => Raise (ValueError ("Missing required configuration section: " ++ section))
  | None => Ok tt
  end.
Proof.
  induction sections as [|s rest IH]; simpl; [done|].
  destruct (dict_mem s entries); simpl; [apply IH | done].
Qed.

Lemma first_missing_None entries :
  first_missing entries = None <->
  (forall section, In section required_sections -> is_Some (dict_get section entries)).
Proof.
  unfold first_missing. split.
  - intros H s Hs. apply dict_mem_true.
    pose proof (find_none _ _ H s Hs) as Hn. by apply negb_false_iff in Hn.
  - intros H. destruct (List.find _ _) as [s|] eqn:E; [|done].
    apply find_some in E as [Hs Hn]. apply H, dict_mem_true in Hs.
    rewrite Hs in Hn. discriminate.
Qed.

Lemma first_missing_Some entries section :
  first_missing entries = Some section ->
  In section required_sections /\ dict_get section entries = None.
Proof.
  intros [Hs Hn]%find_some. split; [done|].
  apply dict_mem_false. by apply negb_true_iff in Hn.
Qed.

Lemma init_of_document logmod fs path document :
  fs !! path = Some (YamlFile document) ->
  __init__ logmod fs path =
    (_ <- _validate_config document;;
     _ <- _setup_logging logmod document;;
     Ok {| config_path := path; config := document |}).
Proof.
  intros Hfile. unfold __init__, _load_config. rewrite Hfile.
  by destruct (_validate_config document) as [[]|].
Qed.

(** A constructed store holds the document of its file, that document is a
    mapping with the four sections, and its logging setup went through. *)
Lemma init_Ok logmod fs path self :
  __init__ logmod fs path = Ok self ->
  exists entries level,
    self = {| config_path := path; config := VDict entries |} /\
    fs !! path = Some (YamlFile (VDict entries)) /\
    first_missing entries = None /\
    _setup_logging logmod (VDict entries) = Ok level.
Proof.
  unfold __init__, _load_config.
  destruct (fs !! path) as [[document|problem]|] eqn:Hfile; simpl; try done.
  destruct (_validate_config document) as [[]|] eqn:Hv; simpl; [|done].
  destruct (_setup_logging logmod document) as [level|] eqn:Hl; simpl; [|done].
  intros [= <-].
  destruct document as [| | | | | |entries]; try discriminate Hl.
  exists entries, level. repeat split; try done.
  unfold _validate_config in Hv. rewrite check_sections_dict in Hv.
  unfold first_missing. by destruct (List.find _ _).
Qed.

Lemma validate_config_dict entries :
  _validate_config (VDict entries) =
  match first_missing entries with
  | Some section => Raise (ValueError ("Missing required configuration section: " ++ section))
  | None => Ok tt
  end.
Proof. apply check_sections_dict. Qed.

Lemma init_with_sections logmod fs path entries :
  fs !! path = Some (YamlFile (VDict entries)) ->
  (forall section, In section required_sections -> is_Some (dict_get section entries)) ->
  __init__ logmod fs path =
    (_ <- _setup_logging logmod (VDict entries);;
     Ok {| config_path := path; config := VDict entries |}).
Proof.
  intros Hfile Hall%first_missing_None.
  by rewrite (init_of_document _ _ _ _ Hfile), validate_config_dict, Hall.
Qed.

(** C1, as amended. Construction from a document that is a mapping fails
    with [ValueError] (the spec's SchemaError) naming the first missing
    section, in the order database, data_sources, data_quality, pipeline,
    whenever one of the four keys is absent. For a document with all four
    keys validation passes and the load step returns the document;
    construction then succeeds exactly when the logging setup does, and
    raises what the logging setup raises otherwise. *)
Theorem construction_checks_sections logmod fs path entries :
  fs !! path = Some (YamlFile (VDict entries)) ->
  (forall section,
      In section required_sections -> dict_get section entries = None ->
      exists missing,
        first_missing entries = Some missing /\
        In missing required_sections /\
        dict_get missing entries = None /\
        __init__ logmod fs path =
          Raise (ValueError ("Missing required configuration section: " ++ missing))) /\
  ((forall section, In section required_sections -> is_Some (dict_get section entries)) ->
      _validate_config (VDict entries) = Ok tt /\
      _load_config fs path = Ok (VDict entries) /\
      __init__ logmod fs path =
        (_ <- _setup_logging logmod (VDict entries);;
         Ok {| config_path := path; config := VDict entries |})).
Proof.
  intros Hfile.
  pose proof (validate_config_dict entries) as Hcheck.
  split.
  - intros section Hin Hnone.
    destruct (first_missing entries) as [missing|] eqn:Hfirst.
    + exists missing. destruct (first_missing_Some _ _ Hfirst) as [Hm Hg].
      repeat split; try done.
      rewrite (init_of_document _ _ _ _ Hfile), Hcheck. done.
    + destruct (proj1 (first_missing_None _) Hfirst section Hin) as [v Hv].
      congruence.
  - intros Hall. split; [|split].
    + apply first_missing_None in Hall. by rewrite Hcheck, Hall.
    + apply first_missing_None in Hall. unfold _load_config. by rewrite Hfile, Hcheck, Hall.
    + by apply init_with_sections.
Qed.

Lemma construction_checks_sections_witness :
  default_files !! "config.yaml" = Some (YamlFile default_config) /\
  __init__ cpython_logging default_files "config.yaml" =
    Ok default_store /\
  __init__ cpython_logging {[ "config.yaml" := YamlFile (VDict [ ("database", VNone); ("pipeline", VNone) ]) ]}
    "config.yaml" =
    Raise (ValueError "Missing required configuration section: data_sources").
Proof.
  split; [reflexivity|]. split.
  - destruct (construction_checks_sections cpython_logging default_files
                "config.yaml"
                default_entries)
      as [_ Hall]; [reflexivity|].
    destruct Hall as (_ & _ & ->); [|reflexivity].
    intros section Hin. simpl in Hin.
    repeat (destruct Hin as [<-|Hin]; [by eexists|]). destruct Hin.
  - destruct (construction_checks_sections cpython_logging
                {[ "config.yaml" := YamlFile (VDict [ ("database", VNone); ("pipeline", VNone) ]) ]}
                "config.yaml" [ ("database", VNone); ("pipeline", VNone) ])
      as [Hmissing _]; [reflexivity|].
    destruct (Hmissing "data_quality") as (missing & Hfirst & _ & _ & ->);
      [simpl; tauto | reflexivity |].
    by injection Hfirst as <-.
Defined.

(** C1, as stated, fails: this document has the four sections, yet no store
    is constructed from it. *)
Lemma four_sections_without_store :
  Forall (fun section => py_in section (document_with_pipeline (logging_at "TRACE")) = Ok true)
    required_sections /\
  __init__ cpython_logging {[ "config.yaml" := YamlFile (document_with_pipeline (logging_at "TRACE")) ]}
    "config.yaml" =
    Raise (AttributeError "module 'logging' has no attribute 'TRACE'").
Proof. split; [repeat constructor | reflexivity]. Qed.

(** ** Logging setup *)

Lemma setup_logging_level logmod entries pipeline logging :
  dict_get "pipeline" entries = Some (VDict pipeline) ->
  dict_get "logging" pipeline = Some (VDict logging) ->
  _setup_logging logmod (VDict entries) =
  match from_option id (VStr "INFO") (dict_get "level" logging) with
  | VStr attr =>
      match logging_getattr logmod attr with
      | Some level => _ <- basicConfig logmod level;; Ok level
      | None => Raise (AttributeError ("module 'logging' has no attribute " ++ repr_str attr))
      end
  | log_level =>
      Raise (TypeError ("attribute name must be string, not '" ++ type_name log_level ++ "'"))
  end.
Proof.
  intros Hp Hl. unfold _setup_logging. simpl. rewrite Hp. simpl. rewrite Hl. simpl.
  by destruct (from_option id (VStr "INFO") (dict_get "level" logging)).
Qed.

Lemma basicConfig_level logmod level : basicConfig logmod (AInt level) = Ok tt.
Proof. unfold basicConfig. by destruct (root_has_handlers logmod). Qed.




(** ** Connection parameters *)

Lemma collect_params_spec env params connection_params missing_params :
  collect_params env params connection_params missing_params =
  (collected env params connection_params,
   (missing_params ++ List.filter (is_unset env) params)%list).
Proof.
  revert connection_params missing_params.
  induction params as [|param rest IH]; intros acc missing; simpl.
  - by rewrite app_nil_r.
  - unfold is_unset at 1. destruct (os_getenv env param) as [v|] eqn:Hv.
    + destruct (String.eqb v ""); rewrite IH; [by rewrite <- app_assoc | done].
    + rewrite IH. by rewrite <- app_assoc.
Qed.

Lemma connection_params_missing self env :
  missing_variables env <> [] ->
  get_snowflake_connection_params self env =
    Raise (ValueError ("Missing required environment variables: "
                       ++ repr_list (missing_variables env))).
Proof.
  intros Hmissing. unfold get_snowflake_connection_params.
  rewrite collect_params_spec. change ([] ++ ?l)%list with l.
  fold (missing_variables env).
  by destruct (missing_variables env).
Qed.

Lemma missing_variables_In env param :
  In param (missing_variables env) <-> In param required_params /\ is_unset env param = true.
Proof. unfold missing_variables. apply filter_In. Qed.

(** C3. Whenever one of the five required variables is absent from the
    environment, [get_snowflake_connection_params] fails with the
    [ValueError] (the spec's MissingEnvironmentError) whose message prints
    the list of all unset required variables: every absent one is in it,
    whatever its position, and with all five absent the list is the five
    names. No store is excepted: the database section is not read before. *)
Theorem missing_variables_all_listed self env :
  (exists param, In param required_params /\ env !! param = None) ->
  get_snowflake_connection_params self env =
    Raise (ValueError ("Missing required environment variables: "
                       ++ repr_list (missing_variables env))) /\
  (forall param, In param required_params -> env !! param = None ->
                 In param (missing_variables env)) /\
  ((forall param, In param required_params -> env !! param = None) ->
     missing_variables env = required_params /\ length (missing_variables env) = 5%nat).
Proof.
  intros (param & Hin & Hnone).
  assert (forall p, In p required_params -> env !! p = None -> In p (missing_variables env))
    as Hlisted.
  { intros p Hp Hp'. apply missing_variables_In. split; [done|].
    unfold is_unset, os_getenv. by rewrite Hp'. }
  split; [|split; [done|]].
  - apply connection_params_missing. intros Hnil.
    specialize (Hlisted param Hin Hnone). rewrite Hnil in Hlisted. destruct Hlisted.
  - intros Hall.
    assert (missing_variables env = required_params) as ->; [|done].
    unfold missing_variables, is_unset, os_getenv. unfold required_params in *.
    simpl. rewrite !Hall by (simpl; tauto). done.
Qed.

Lemma missing_variables_all_listed_witness :
  ({[ "SNOWFLAKE_USER" := "etl"; "SNOWFLAKE_ROLE" := "" ]} : gmap string string)
    !! "SNOWFLAKE_PASSWORD" = None /\
  get_snowflake_connection_params {| config_path := "config.yaml"; config := VNone |}
    {[ "SNOWFLAKE_USER" := "etl"; "SNOWFLAKE_ROLE" := "" ]} =
    Raise (ValueError "Missing required environment variables: ['SNOWFLAKE_ACCOUNT', 'SNOWFLAKE_PASSWORD', 'SNOWFLAKE_WAREHOUSE', 'SNOWFLAKE_ROLE']") /\
  length (missing_variables ∅) = 5%nat.
Proof.
  split; [reflexivity|]. split.
  - destruct (missing_variables_all_listed
                {| config_path := "config.yaml"; config := VNone |}
                {[ "SNOWFLAKE_USER" := "etl"; "SNOWFLAKE_ROLE" := "" ]}) as [-> _].
    + exists "SNOWFLAKE_PASSWORD". split; [simpl; tauto | reflexivity].
    + reflexivity.
  - destruct (missing_variables_all_listed
                {| config_path := "config.yaml"; config := VNone |} ∅) as (_ & _ & Hall).
    + exists "SNOWFLAKE_ACCOUNT". split; [simpl; tauto | reflexivity].
    + apply Hall. intros param _. reflexivity.
Defined.

Lemma collect_params_delete_empty env param params connection_params missing_params :
  env !! param = Some "" ->
  collect_params (delete param env) params connection_params missing_params =
  collect_params env params connection_params missing_params.
Proof.
  intros Hempty. revert connection_params missing_params.
  induction params as [|p rest IH]; intros acc missing; simpl; [done|].
  unfold os_getenv. destruct (decide (p = param)) as [->|Hne].
  - rewrite lookup_delete_eq, Hempty. simpl. apply IH.
  - rewrite lookup_delete_ne by done.
    destruct (env !! p) as [v|]; [destruct (String.eqb v "")|]; apply IH.
Qed.

Lemma collected_lookup env params connection_params key x :
  collected env params connection_params !! key = Some x ->
  connection_params !! key = Some x \/
  exists param v,
    In param params /\ param_key param = key /\ env !! param = Some v /\
    v <> "" /\ x = VStr v.
Proof.
  revert connection_params. induction params as [|p rest IH]; intros acc; simpl.
  - by left.
  - intros [Hacc|(param & v & Hin & Hkey & Hv & Hne & Hx)]%IH.
    + unfold os_getenv in Hacc. destruct (env !! p) as [v|] eqn:Hp; [|by left].
      destruct (String.eqb v "") eqn:Hv; [by left|].
      destruct (decide (param_key p = key)) as [Hk|Hk].
      * rewrite Hk, lookup_insert_eq in Hacc. right. exists p, v.
        apply String.eqb_neq in Hv. injection Hacc as <-. by repeat split; [left|..].
      * rewrite lookup_insert_ne in Hacc by done. by left.
    + right. exists param, v. by repeat split; [right|..].
Qed.

Lemma param_key_inj p q :
  In p required_params -> In q required_params -> param_key p = param_key q -> p = q.
Proof.
  unfold required_params. simpl. intros Hp Hq.
  repeat (destruct Hp as [<-|Hp]; [|]); try destruct Hp;
    repeat (destruct Hq as [<-|Hq]; [|]); try destruct Hq;
    vm_compute; congruence.
Qed.

(** C10. A required variable set to the empty string is treated exactly
    like an absent one: the call has the outcome it has in the environment
    without the variable, that outcome is the [ValueError] whose list names
    the variable, and the loop has put no entry under its key into the
    mapping it was building. *)
Theorem empty_variable_counts_as_absent self env param :
  In param required_params ->
  env !! param = Some "" ->
  get_snowflake_connection_params self env =
    get_snowflake_connection_params self (delete param env) /\
  In param (missing_variables env) /\
  get_snowflake_connection_params self env =
    Raise (ValueError ("Missing required environment variables: "
                       ++ repr_list (missing_variables env))) /\
  fst (collect_params env required_params ∅ []) !! param_key param = None.
Proof.
  intros Hin Hempty.
  assert (In param (missing_variables env)) as Hmissing.
  { apply missing_variables_In. split; [done|]. unfold is_unset, os_getenv. by rewrite Hempty. }
  split; [|split; [done|split]].
  - unfold get_snowflake_connection_params.
    by rewrite (collect_params_delete_empty env param) by done.
  - apply connection_params_missing. intros Hnil. rewrite Hnil in Hmissing. destruct Hmissing.
  - rewrite collect_params_spec. simpl fst.
    destruct (collected env required_params ∅ !! param_key param) as [x|] eqn:Hx; [|done].
    apply collected_lookup in Hx as [Hx|(p & v & Hp & Hkey & Hv & Hne & _)].
    + by rewrite lookup_empty in Hx.
    + apply param_key_inj in Hkey; [|done..]. subst p. congruence.
Qed.

Lemma empty_variable_counts_as_absent_witness :
  In "SNOWFLAKE_ROLE" required_params /\
  ({[ "SNOWFLAKE_USER" := "etl"; "SNOWFLAKE_ROLE" := "" ]} : gmap string string)
    !! "SNOWFLAKE_ROLE" = Some "" /\
  In "SNOWFLAKE_ROLE"
    (missing_variables {[ "SNOWFLAKE_USER" := "etl"; "SNOWFLAKE_ROLE" := "" ]}).
Proof.
  split; [simpl; tauto|]. split; [reflexivity|].
  apply (empty_variable_counts_as_absent
           {| config_path := "config.yaml"; config := default_config |}
           {[ "SNOWFLAKE_USER" := "etl"; "SNOWFLAKE_ROLE" := "" ]} "SNOWFLAKE_ROLE");
    [simpl; tauto | reflexivity].
Defined.

Lemma database_config_of_document self entries database name schemas :
  config self = VDict entries ->
  dict_get "database" entries = Some (VDict database) ->
  dict_get "name" database = Some name ->
  dict_get "schemas" database = Some schemas ->
  get_database_config self =
    Ok {| DatabaseConfig.name := name; DatabaseConfig.schemas := schemas |}.
Proof.
  intros Hc Hd Hn Hs. unfold get_database_config. rewrite Hc. simpl.
  rewrite Hd. simpl. rewrite Hn. simpl. by rewrite Hs.
Qed.

Lemma connection_params_set self env account user password warehouse role :
  env !! "SNOWFLAKE_ACCOUNT" = Some account -> account <> "" ->
  env !! "SNOWFLAKE_USER" = Some user -> user <> "" ->
  env !! "SNOWFLAKE_PASSWORD" = Some password -> password <> "" ->
  env !! "SNOWFLAKE_WAREHOUSE" = Some warehouse -> warehouse <> "" ->
  env !! "SNOWFLAKE_ROLE" = Some role -> role <> "" ->
  get_snowflake_connection_params self env =
    (db_config <- get_database_config self;;
     Ok (<["database" := DatabaseConfig.name db_config]>
           (<["role" := VStr role]>
              (<["warehouse" := VStr warehouse]>
                 (<["password" := VStr password]>
                    (<["user" := VStr user]> (<["account" := VStr account]> ∅))))))).
Proof.
  intros Ha Ha' Hu Hu' Hp Hp' Hw Hw' Hr Hr'.
  apply String.eqb_neq in Ha', Hu', Hp', Hw', Hr'.
  unfold get_snowflake_connection_params, collect_params, required_params, os_getenv.
  by rewrite Ha, Ha', Hu, Hu', Hp, Hp', Hw, Hw', Hr, Hr'.
Qed.

(** C4, as amended. When the five required variables are all set to
    non-empty strings, [get_snowflake_connection_params] does what
    [get_database_config] lets it do. On a store whose [database] section is
    a mapping holding [name] and [schemas] it returns a mapping of exactly
    six entries: [account], [user], [password], [warehouse] and [role], the
    variable names lower-cased with the [snowflake_] prefix removed, bound
    to the values of the environment, and [database] bound to the [name]
    field of the stored database section. On any other store it raises what
    [get_database_config] raises, for all that the five variables are
    set. *)
Theorem connection_params_complete self env account user password warehouse role :
  env !! "SNOWFLAKE_ACCOUNT" = Some account -> account <> "" ->
  env !! "SNOWFLAKE_USER" = Some user -> user <> "" ->
  env !! "SNOWFLAKE_PASSWORD" = Some password -> password <> "" ->
  env !! "SNOWFLAKE_WAREHOUSE" = Some warehouse -> warehouse <> "" ->
  env !! "SNOWFLAKE_ROLE" = Some role -> role <> "" ->
  (forall entries database name schemas,
      config self = VDict entries ->
      dict_get "database" entries = Some (VDict database) ->
      dict_get "name" database = Some name ->
      dict_get "schemas" database = Some schemas ->
      exists connection_params,
        get_snowflake_connection_params self env = Ok connection_params /\
        connection_params =
          {[ "account" := VStr account; "user" := VStr user; "password" := VStr password;
             "warehouse" := VStr warehouse; "role" := VStr role; "database" := name ]} /\
        size connection_params = 6%nat) /\
  (forall e,
      get_database_config self = Raise e ->
      get_snowflake_connection_params self env = Raise e) /\
  map param_key required_params = [ "account"; "user"; "password"; "warehouse"; "role" ].
Proof.
  intros Ha Ha' Hu Hu' Hp Hp' Hw Hw' Hr Hr'.
  rewrite (connection_params_set self env account user password warehouse role) by done.
  split; [|split; [|reflexivity]].
  - intros entries database name schemas Hc Hd Hn Hs.
    rewrite (database_config_of_document _ _ _ _ _ Hc Hd Hn Hs). cbn [bind DatabaseConfig.name].
    eexists. split; [reflexivity|]. split.
    + apply map_eq. intros key.
      repeat (rewrite lookup_insert; case_decide; [subst; reflexivity|]).
      repeat (rewrite (lookup_insert_ne (M:=gmap string)) by done).
      by rewrite lookup_empty, lookup_singleton_ne.
    + rewrite !map_size_insert_None; [by rewrite map_size_empty|..];
        repeat (rewrite lookup_insert_ne by done); apply lookup_empty.
  - by intros e ->.
Qed.

Lemma connection_params_complete_witness :
  example_env !! "SNOWFLAKE_ROLE" = Some "SYSADMIN" /\
  get_snowflake_connection_params default_store example_env =
    Ok {[ "account" := VStr "xy12345"; "user" := VStr "etl"; "password" := VStr "secret";
          "warehouse" := VStr "COMPUTE_WH"; "role" := VStr "SYSADMIN";
          "database" := VStr "TASTY_BYTES" ]}.
Proof.
  split; [reflexivity|].
  destruct (connection_params_complete default_store example_env
              "xy12345" "etl" "secret" "COMPUTE_WH" "SYSADMIN")
    as (Hcomplete & _);
    [reflexivity | discriminate | reflexivity | discriminate | reflexivity | discriminate
    | reflexivity | discriminate | reflexivity | discriminate |].
  destruct (Hcomplete default_entries
              [ ("name", VStr "TASTY_BYTES");
                ("schemas", VDict [ ("raw", VStr "RAW_DATA");
                                    ("harmonized", VStr "HARMONIZED");
                                    ("analytics", VStr "ANALYTICS") ]) ]
              (VStr "TASTY_BYTES")
              (VDict [ ("raw", VStr "RAW_DATA");
                       ("harmonized", VStr "HARMONIZED");
                       ("analytics", VStr "ANALYTICS") ]))
    as (connection_params & -> & -> & _); reflexivity.
Defined.

(** C4, as stated, fails: this document is loaded into a store, its
    database section has a [name], the five variables are set, and the call
    raises [KeyError] for [schemas]. *)
Lemma connection_params_need_schemas :
  __init__ cpython_logging {[ "config.yaml" := YamlFile document_without_schemas ]}
    "config.yaml" =
    Ok {| config_path := "config.yaml"; config := document_without_schemas |} /\
  missing_variables example_env = [] /\
  get_snowflake_connection_params
    {| config_path := "config.yaml"; config := document_without_schemas |} example_env =
    Raise (KeyError "'schemas'").
Proof. repeat split. Qed.

(** ** Data sources and pipeline stages *)

(** A constructed store holds a mapping whose [pipeline] is a mapping: the
    logging setup called [get] on it. *)
Lemma init_Ok_pipeline logmod fs path self :
  __init__ logmod fs path = Ok self ->
  exists entries pipeline,
    config self = VDict entries /\
    (forall section, In section required_sections -> is_Some (dict_get section entries)) /\
    dict_get "pipeline" entries = Some (VDict pipeline).
Proof.
  intros Hinit.
  destruct (init_Ok _ _ _ _ Hinit) as (entries & level & -> & _ & Hsections & Hlevel).
  pose proof (proj1 (first_missing_None entries) Hsections) as Hall.
  destruct (Hall "pipeline") as [pipeline Hp]; [simpl; tauto|].
  unfold _setup_logging in Hlevel. cbn [py_get bind] in Hlevel. rewrite Hp in Hlevel.
  cbn [from_option id] in Hlevel.
  destruct pipeline as [| | | | | |pipeline]; try discriminate Hlevel.
  by exists entries, pipeline.
Qed.

(** C8, as amended. For every loaded document whose [data_sources] section
    is a mapping, [get_data_source_config] fails with [KeyError] (the spec's
    NotFoundError) exactly when the name is absent from the section, and
    otherwise returns the stored value itself. The constructor also accepts
    a [data_sources] that is no mapping, and then the call never returns a
    value: on a sequence or a string it raises [KeyError] when the name is
    no item of the sequence, no part of the string, and [TypeError] when it
    is; on [None], a boolean or a number it raises [TypeError] whatever the
    name. *)
Theorem data_source_lookup logmod fs path self source_name :
  __init__ logmod fs path = Ok self ->
  exists entries section,
    config self = VDict entries /\
    dict_get "data_sources" entries = Some section /\
    match section with
    | VDict sources =>
        (dict_get source_name sources = None ->
           get_data_source_config self source_name =
             Raise (KeyError ("Data source '" ++ source_name ++ "' not found in configuration"))) /\
        (forall stored, dict_get source_name sources = Some stored ->
           get_data_source_config self source_name = Ok stored) /\
        (raises (get_data_source_config self source_name) <->
           dict_get source_name sources = None)
    | VList items =>
        if existsb (fun item => py_eq_str item source_name) items
        then exists message,
               get_data_source_config self source_name = Raise (TypeError message)
        else get_data_source_config self source_name =
               Raise (KeyError ("Data source '" ++ source_name
                                ++ "' not found in configuration"))
    | VStr text =>
        if is_substring source_name text
        then exists message,
               get_data_source_config self source_name = Raise (TypeError message)
        else get_data_source_config self source_name =
               Raise (KeyError ("Data source '" ++ source_name
                                ++ "' not found in configuration"))
    | _ => exists message, get_data_source_config self source_name = Raise (TypeError message)
    end.
Proof.
  intros Hinit.
  destruct (init_Ok_pipeline _ _ _ _ Hinit) as (entries & pipeline & Hc & Hall & _).
  destruct (Hall "data_sources") as [section Hsection]; [simpl; tauto|].
  exists entries, section. split; [done|]. split; [done|].
  unfold get_data_source_config. rewrite Hc. cbn [py_get bind]. rewrite Hsection.
  cbn [from_option id].
  destruct section as [| | | |text|items|sources]; cbn [py_in bind]; try by eexists.
  - destruct (is_substring source_name text); cbn [negb py_getitem]; [by eexists|done].
  - change (fun item => match item with VStr s => String.eqb s source_name | _ => false end)
      with (fun item => py_eq_str item source_name).
    destruct (existsb _ items); cbn [negb py_getitem]; [by eexists|done].
  - unfold dict_mem. cbn [py_getitem].
    destruct (dict_get source_name sources) as [stored|]; cbn [negb].
    + split; [done|]. split; [by intros ? [= ->]|]. split; [intros []|done].
    + done.
Qed.

Lemma data_source_lookup_witness :
  __init__ cpython_logging default_files "config.yaml" = Ok default_store /\
  get_data_source_config default_store "weather_data" =
    Ok (VDict [ ("table", VStr "weather_hamburg");
                ("schema", VStr "harmonized");
                ("refresh_frequency", VStr "daily");
                ("retention_days", VInt 365) ]) /\
  get_data_source_config default_store "missing" =
    Raise (KeyError "Data source 'missing' not found in configuration").
Proof.
  split; [reflexivity|]. split.
  - destruct (data_source_lookup cpython_logging default_files "config.yaml" default_store
                "weather_data") as (entries & section & Hc & Hsection & Hlookup);
      [reflexivity|].
    injection Hc as <-. injection Hsection as <-.
    destruct Hlookup as (_ & Hfound & _). apply Hfound. reflexivity.
  - destruct (data_source_lookup cpython_logging default_files "config.yaml" default_store
                "missing") as (entries & section & Hc & Hsection & Hlookup);
      [reflexivity|].
    injection Hc as <-. injection Hsection as <-.
    destruct Hlookup as (Habsent & _). apply Habsent. reflexivity.
Defined.

(** C8, as stated, fails: this document is loaded into a store, its
    [data_sources] section is empty ([None]), so every name is absent from
    it, and the lookup raises [TypeError], not [KeyError]. *)
Lemma data_source_lookup_in_null :
  __init__ cpython_logging {[ "config.yaml" := YamlFile document_with_null_sources ]}
    "config.yaml" =
    Ok {| config_path := "config.yaml"; config := document_with_null_sources |} /\
  get_data_source_config
    {| config_path := "config.yaml"; config := document_with_null_sources |} "weather_data" =
    Raise (TypeError "argument of type 'NoneType' is not iterable").
Proof. split; reflexivity. Qed.

Lemma stage_init_unexpected record field :
  In field (dict_keys record) ->
  PipelineStage.is_field field = false ->
  exists unexpected,
    In unexpected (dict_keys record) /\
    PipelineStage.is_field unexpected = false /\
    PipelineStage.init (VDict record) =
      Raise (TypeError ("PipelineStage.__init__() got an unexpected keyword argument "
                        ++ repr_str unexpected)).
Proof.
  intros Hin Hfield. unfold PipelineStage.init.
  destruct (find (fun k => negb (PipelineStage.is_field k)) (dict_keys record))
    as [unexpected|] eqn:Hfind.
  - apply find_some in Hfind as [Hin' Hneg]. exists unexpected.
    by apply negb_true_iff in Hneg.
  - pose proof (find_none _ _ Hfind field Hin) as Hneg. simpl in Hneg.
    rewrite Hfield in Hneg. discriminate.
Qed.

(** C6, as amended. For every loaded document, [get_pipeline_stage_config]
    does what [pipeline.stages] lets it do. When [stages] is a mapping, a
    stage whose stored record has a key outside the eight fields of
    [PipelineStage] raises [TypeError] (the strict keyword-only construction
    of the dataclass, the spec's SchemaError), and a stage name absent from
    the mapping raises [KeyError] (the spec's NotFoundError); [KeyError] is
    raised too, for every stage name, when [pipeline] has no [stages] at
    all. The constructor also accepts a [stages] that is no mapping: on a
    sequence or a string the call raises [KeyError] when the name is no item
    of the sequence, no part of the string, and [TypeError] when it is; on
    [None], a boolean or a number it raises [TypeError] whatever the
    name. *)
Theorem stage_config_strict logmod fs path self stage_name :
  __init__ logmod fs path = Ok self ->
  exists entries pipeline,
    config self = VDict entries /\
    dict_get "pipeline" entries = Some (VDict pipeline) /\
    match dict_get "stages" pipeline with
    | None =>
        get_pipeline_stage_config self stage_name =
          Raise (KeyError ("Pipeline stage '" ++ stage_name ++ "' not found in configuration"))
    | Some (VDict stages) =>
        (forall record field,
            dict_get stage_name stages = Some (VDict record) ->
            In field (dict_keys record) ->
            ~ In field PipelineStage.fields ->
            exists message,
              get_pipeline_stage_config self stage_name = Raise (TypeError message)) /\
        (dict_get stage_name stages = None ->
            get_pipeline_stage_config self stage_name =
              Raise (KeyError ("Pipeline stage '" ++ stage_name
                               ++ "' not found in configuration")))
    | Some (VList items) =>
        if existsb (fun item => py_eq_str item stage_name) items
        then exists message,
               get_pipeline_stage_config self stage_name = Raise (TypeError message)
        else get_pipeline_stage_config self stage_name =
               Raise (KeyError ("Pipeline stage '" ++ stage_name
                                ++ "' not found in configuration"))
    | Some (VStr text) =>
        if is_substring stage_name text
        then exists message,
               get_pipeline_stage_config self stage_name = Raise (TypeError message)
        else get_pipeline_stage_config self stage_name =
               Raise (KeyError ("Pipeline stage '" ++ stage_name
                                ++ "' not found in configuration"))
    | Some _ =>
        exists message, get_pipeline_stage_config self stage_name = Raise (TypeError message)
    end.
Proof.
  intros Hinit.
  destruct (init_Ok_pipeline _ _ _ _ Hinit) as (entries & pipeline & Hc & _ & Hp).
  exists entries, pipeline. split; [done|]. split; [done|].
  unfold get_pipeline_stage_config. rewrite Hc. cbn [py_get bind]. rewrite Hp.
  cbn [py_get bind from_option id].
  destruct (dict_get "stages" pipeline) as [[| | | |text|items|stages]|];
    cbn [py_in py_getitem bind from_option id dict_mem dict_get negb]; try by eexists.
  - destruct (is_substring stage_name text); cbn [negb]; [by eexists|done].
  - change (fun item => match item with VStr s => String.eqb s stage_name | _ => false end)
      with (fun item => py_eq_str item stage_name).
    destruct (existsb _ items); cbn [negb]; [by eexists|done].
  - unfold dict_mem. split.
    + intros record field -> Hin Hfield. cbn [negb bind].
      destruct (stage_init_unexpected record field Hin) as (unexpected & _ & _ & ->).
      * unfold PipelineStage.is_field. apply not_true_is_false. intros Hex.
        apply existsb_exists in Hex as (f & Hf & Heq). apply String.eqb_eq in Heq. by subst.
      * by eexists.
    + by intros ->.
Qed.

Lemma stage_config_strict_witness :
  __init__ cpython_logging default_files "config.yaml" = Ok default_store /\
  get_pipeline_stage_config default_store "export" =
    Raise (KeyError "Pipeline stage 'export' not found in configuration") /\
  exists message,
    get_pipeline_stage_config
      {| config_path := "config.yaml"; config := document_with_extra_field |}
      "ingestion" = Raise (TypeError message).
Proof.
  split; [reflexivity|]. split.
  - destruct (stage_config_strict cpython_logging default_files "config.yaml" default_store
                "export") as (entries & pipeline & Hc & Hp & Hstages); [reflexivity|].
    injection Hc as <-. injection Hp as <-.
    destruct Hstages as [_ Habsent]. apply Habsent. reflexivity.
  - destruct (stage_config_strict cpython_logging
                {[ "config.yaml" := YamlFile document_with_extra_field ]} "config.yaml"
                {| config_path := "config.yaml"; config := document_with_extra_field |}
                "ingestion") as (entries & pipeline & Hc & Hp & Hstages); [reflexivity|].
    injection Hc as <-. injection Hp as <-.
    destruct Hstages as [Hextra _].
    apply (Hextra [ ("batch_size", VInt 10000); ("retries", VInt 3) ] "retries");
      [reflexivity | simpl; tauto |].
    simpl. intros H. repeat (destruct H as [H|H]; [discriminate H|]). destruct H.
Defined.

(** C6, as stated, fails: this document is loaded into a store, its
    [pipeline.stages] is empty ([None]), so every stage name is absent from
    it, and the lookup raises [TypeError], not [KeyError]. *)
Lemma stage_lookup_in_null :
  __init__ cpython_logging {[ "config.yaml" := YamlFile document_with_null_stages ]}
    "config.yaml" =
    Ok {| config_path := "config.yaml"; config := document_with_null_stages |} /\
  get_pipeline_stage_config
    {| config_path := "config.yaml"; config := document_with_null_stages |} "ingestion" =
    Raise (TypeError "argument of type 'NoneType' is not iterable").
Proof. split; reflexivity. Qed.

(** ** Threshold validation *)

Lemma number_lt_int_le n b :
  n <> NFloat FNan -> number_lt_int n b = negb (int_le_number b n).
Proof.
  destruct n as [z|[|negative|q]]; simpl; intros Hn; try done.
  - apply Z.ltb_antisym.
  - by destruct negative.
Qed.

Lemma is_valid_number rule n :
  as_number (DataQualityRule.threshold rule) = Some n ->
  is_valid rule =
    Ok (if py_eq_str (DataQualityRule.type rule) "completeness"
           || py_eq_str (DataQualityRule.type rule) "uniqueness"
        then int_le_number 0 n && number_le_int n 100
        else if py_eq_str (DataQualityRule.type rule) "timeliness"
             then negb (number_lt_int n 0)
             else true).
Proof.
  intros Hn. unfold is_valid, py_between, py_lt_int. rewrite Hn.
  destruct (DataQualityRule.type rule) as [| | | |type| |]; simpl; try done.
  destruct (String.eqb type "completeness") eqn:Hc; simpl.
  - apply String.eqb_eq in Hc as ->. simpl.
    by destruct (andb _ _).
  - destruct (String.eqb type "uniqueness") eqn:Hu; simpl.
    + clear Hc. apply String.eqb_eq in Hu as ->. simpl. by destruct (andb _ _).
    + destruct (String.eqb type "timeliness"); simpl; [|done].
      by destruct (number_lt_int n 0).
Qed.

(** Apart from not-a-number, the code computes the invariant of the data
    model. *)
Lemma is_valid_meets_invariant rule n :
  as_number (DataQualityRule.threshold rule) = Some n ->
  n <> NFloat FNan ->
  is_valid rule = Ok (threshold_invariant (DataQualityRule.type rule) n).
Proof.
  intros Hn Hnan. rewrite (is_valid_number _ _ Hn). unfold threshold_invariant.
  by rewrite (number_lt_int_le _ _ Hnan), negb_involutive.
Qed.

Lemma find_app_last {A : Type} (f : A -> bool) (l : list A) (x : A) :
  List.find f (l ++ [x]) =
  match List.find f l with
  | Some y => Some y
  | None => if f x then Some x else None
  end.
Proof.
  induction l as [|y l IH]; simpl; [done|]. by destruct (f y).
Qed.

(** C2, at the input where the code departs from it. The document is
    loaded into a store; its one rule is of type timeliness with
    not-a-number for a threshold, which is not [>= 0]; the code reports the
    rule valid, because it tests [threshold < 0] where the two other types
    test [not (0 <= threshold <= 100)]. *)
Theorem nan_timeliness_reported_valid :
  __init__ cpython_logging {[ "config.yaml" := YamlFile nan_timeliness_document ]} "config.yaml" =
    Ok {| config_path := "config.yaml"; config := nan_timeliness_document |} /\
  validate_data_quality_thresholds
    {| config_path := "config.yaml"; config := nan_timeliness_document |} =
    Ok [ (VStr "freshness", true) ] /\
  threshold_invariant (VStr "timeliness") (NFloat FNan) = false /\
  validate_data_quality_thresholds
    {| config_path := "config.yaml";
       config := document_with_rules [ rule_record "nulls" "completeness" (VFloat FNan) ] |} =
    Ok [ (VStr "nulls", false) ].
Proof. repeat split. Qed.

(** ** Updates *)

Lemma leb_refl s : String.leb s s = true.
Proof.
  destruct (String.leb_total s s) as [H|H]; exact H.
Qed.

Lemma dict_get_insert_entry {A : Type} k k' (v : A) sorted :
  dict_get k (insert_entry k' v sorted) =
  if String.eqb k' k then Some v else dict_get k sorted.
Proof.
  induction sorted as [|[k0 v0] sorted IH]; cbn [insert_entry dict_get]; [done|].
  destruct (String.leb k' k0) eqn:Hle; cbn [dict_get]; [done|].
  rewrite IH. destruct (String.eqb k0 k) eqn:E0; [|done].
  destruct (String.eqb k' k) eqn:E; [|done].
  apply String.eqb_eq in E0 as ->. apply String.eqb_eq in E as ->.
  by rewrite leb_refl in Hle.
Qed.

(** Sorting the entries changes no lookup. *)
Lemma dict_get_sort_entries {A : Type} k (entries : list (string * A)) :
  dict_get k (sort_entries entries) = dict_get k entries.
Proof.
  induction entries as [|[k0 v0] entries IH]; cbn [sort_entries fold_right dict_get fst snd];
    [done|].
  fold (sort_entries entries). by rewrite dict_get_insert_entry, IH.
Qed.

(** The sorted entries are the entries, in the order of their keys. *)
Lemma insert_entry_Permutation {A : Type} k (v : A) sorted :
  insert_entry k v sorted ≡ₚ (k, v) :: sorted.
Proof.
  induction sorted as [|[k0 v0] sorted IH]; cbn [insert_entry]; [done|].
  destruct (String.leb k k0); [done|]. rewrite IH. apply Permutation_swap.
Qed.

Lemma sort_entries_Permutation {A : Type} (entries : list (string * A)) :
  sort_entries entries ≡ₚ entries.
Proof.
  induction entries as [|[k v] entries IH]; cbn [sort_entries fold_right fst snd]; [done|].
  fold (sort_entries entries). by rewrite insert_entry_Permutation, IH.
Qed.

Lemma insert_entry_Sorted {A : Type} k (v : A) sorted :
  Sorted (fun a b => key_le (fst a) (fst b)) sorted ->
  Sorted (fun a b => key_le (fst a) (fst b)) (insert_entry k v sorted).
Proof.
  induction 1 as [|[k0 v0] sorted Hsorted IH Hhead]; cbn [insert_entry].
  - by repeat constructor.
  - destruct (String.leb k k0) eqn:Hle.
    + constructor; [by constructor|]. by constructor.
    + constructor; [done|].
      assert (key_le k0 k) as Hge.
      { destruct (String.leb_total k k0) as [H|H]; [congruence|done]. }
      destruct Hhead as [|[k1 v1] rest Hk1]; cbn [insert_entry]; [by constructor|].
      destruct (String.leb k k1); by constructor.
Qed.

Lemma sort_entries_Sorted {A : Type} (entries : list (string * A)) :
  Sorted (fun a b => key_le (fst a) (fst b)) (sort_entries entries).
Proof.
  induction entries as [|[k v] entries IH]; cbn [sort_entries fold_right fst snd];
    [constructor|].
  by apply insert_entry_Sorted.
Qed.

Lemma dict_get_map_values {A B : Type} (f : A -> B) k (entries : list (string * A)) :
  dict_get k (map (fun entry => (fst entry, f (snd entry))) entries) =
  option_map f (dict_get k entries).
Proof.
  induction entries as [|[k0 v0] entries IH]; cbn [map dict_get fst snd option_map]; [done|].
  by destruct (String.eqb k0 k).
Qed.

Lemma sort_keys_dict entries : sort_keys (VDict entries) = VDict (sorted_entries entries).
Proof. reflexivity. Qed.

(** A key of a dumped mapping reads back as what was stored under it, read
    back. *)
Lemma dict_get_sorted k entries :
  dict_get k (sorted_entries entries) = option_map sort_keys (dict_get k entries).
Proof. unfold sorted_entries. by rewrite dict_get_sort_entries, dict_get_map_values. Qed.

(** A mapping comes back with the keys it had, in sorted order. *)
Lemma sorted_entries_keys entries :
  dict_keys (sorted_entries entries) ≡ₚ dict_keys entries /\
  Sorted key_le (dict_keys (sorted_entries entries)).
Proof.
  unfold sorted_entries, dict_keys. split.
  - rewrite sort_entries_Permutation, map_map. cbn [fst]. done.
  - generalize (sort_entries_Sorted
                  (map (fun entry => (fst entry, sort_keys (snd entry))) entries)).
    generalize (sort_entries (map (fun entry => (fst entry, sort_keys (snd entry))) entries)).
    intros sorted. induction 1 as [|entry sorted Hsorted IH Hhead]; cbn [map]; [constructor|].
    constructor; [done|]. destruct Hhead; cbn [map]; by constructor.
Qed.

Lemma dict_mem_sorted k entries : dict_mem k (sorted_entries entries) = dict_mem k entries.
Proof. unfold dict_mem. rewrite dict_get_sorted. by destruct (dict_get k entries). Qed.

Lemma first_missing_sorted entries : first_missing (sorted_entries entries) = first_missing entries.
Proof.
  unfold first_missing, required_sections. cbn [List.find]. by rewrite !dict_mem_sorted.
Qed.

Lemma py_get_sort_keys container key default :
  py_get (sort_keys container) key (sort_keys default) =
  match py_get container key default with
  | Ok v => Ok (sort_keys v)
  | Raise e => Raise e
  end.
Proof.
  destruct container as [| | | | | |entries]; try reflexivity.
  rewrite sort_keys_dict. cbn [py_get]. rewrite dict_get_sorted.
  by destruct (dict_get key entries).
Qed.

(** The logging setup reads the same level from a document and from the
    document read back. *)
Lemma setup_logging_sort_keys logmod document :
  _setup_logging logmod (sort_keys document) = _setup_logging logmod document.
Proof.
  unfold _setup_logging.
  change (VDict []) with (sort_keys (VDict [])).
  change (VStr "INFO") with (sort_keys (VStr "INFO")).
  rewrite py_get_sort_keys.
  destruct (py_get document "pipeline" _) as [pipeline|]; cbn [bind]; [|done].
  rewrite py_get_sort_keys.
  destruct (py_get pipeline "logging" _) as [logging|]; cbn [bind]; [|done].
  rewrite py_get_sort_keys.
  destruct (py_get logging "level" _) as [log_level|]; cbn [bind]; [|done].
  by destruct log_level.
Qed.

(** Constructing a store from the file [yaml.dump] wrote for a mapping with
    the four sections. *)
Lemma init_of_dumped logmod fs path entries :
  (forall section, In section required_sections -> is_Some (dict_get section entries)) ->
  __init__ logmod (<[path := yaml_dump (VDict entries)]> fs) path =
    (_ <- _setup_logging logmod (VDict entries);;
     Ok {| config_path := path; config := sort_keys (VDict entries) |}).
Proof.
  intros Hsections%first_missing_None.
  rewrite (init_of_document logmod _ path (sort_keys (VDict entries)))
    by apply lookup_insert_eq.
  rewrite setup_logging_sort_keys, sort_keys_dict, validate_config_dict, first_missing_sorted.
  by rewrite Hsections.
Qed.

Lemma update_config_formula self fs entries section key v :
  config self = VDict entries ->
  (dict_get section entries = None \/
   exists stored, dict_get section entries = Some (VDict stored)) ->
  update_config self fs section key v =
    let entries' :=
      dict_set section (VDict (dict_set key v (stored_section section entries))) entries in
    Ok ({| config_path := config_path self; config := VDict entries' |},
        <[config_path self := yaml_dump (VDict entries')]> fs).
Proof.
  intros Hc Hshape. unfold update_config, _save_config, stored_section. rewrite Hc.
  cbn [py_in bind]. unfold dict_mem.
  destruct Hshape as [Habsent|[stored Hstored]].
  - rewrite Habsent. cbn [negb py_setitem py_getitem bind].
    rewrite dict_get_set_eq. cbn [py_setitem bind config_path config].
    by rewrite dict_set_set.
  - rewrite Hstored. cbn [negb py_setitem py_getitem bind]. rewrite Hstored.
    by cbn [py_setitem bind config_path config].
Qed.

Lemma stored_section_set section stored entries :
  stored_section section (dict_set section (VDict stored) entries) = stored.
Proof. unfold stored_section. by rewrite dict_get_set_eq. Qed.



(** A logging setup that went through goes through again later in the
    process: with handlers on the root logger [basicConfig] checks
    nothing. *)
Lemma setup_logging_later logmod logmod' document level :
  later_logging logmod logmod' ->
  _setup_logging logmod document = Ok level ->
  _setup_logging logmod' document = Ok level.
Proof.
  intros [Hmembers Hhandlers]. unfold _setup_logging.
  destruct (py_get document "pipeline" _) as [pipeline|]; cbn [bind]; [|done].
  destruct (py_get pipeline "logging" _) as [logging|]; cbn [bind]; [|done].
  destruct (py_get logging "level" _) as [log_level|]; cbn [bind]; [|done].
  destruct log_level as [| | | |attr| |]; try done.
  unfold logging_getattr. rewrite Hmembers.
  destruct (match level_constant attr with
            | Some l => Some (AInt l)
            | None => members logmod attr
            end) as [found|]; [|done].
  unfold basicConfig. destruct Hhandlers as [->| ->]; [done|].
  destruct (root_has_handlers logmod); [done|].
  destruct found; cbn [bind]; try done.
  all: destruct (_checkLevel _); cbn [bind]; done.
Qed.





(** * Further properties of the code *)

(** ** Construction *)

(** X1. A store is constructed exactly from a file that parses to a mapping
    which has the four sections and whose logging setup goes through; the
    store then holds the path and that very document. Every store a caller
    holds after construction therefore has a mapping with the four
    sections. *)
Theorem store_constructed_iff logmod fs path self :
  __init__ logmod fs path = Ok self <->
  exists entries level,
    self = {| config_path := path; config := VDict entries |} /\
    fs !! path = Some (YamlFile (VDict entries)) /\
    (forall section, In section required_sections -> is_Some (dict_get section entries)) /\
    _setup_logging logmod (VDict entries) = Ok level.
Proof.
  split.
  - intros Hinit.
    destruct (init_Ok _ _ _ _ Hinit) as (entries & level & -> & Hfile & Hsections & Hlevel).
    exists entries, level. repeat split; try done.
    by apply (proj1 (first_missing_None entries)).
  - intros (entries & level & -> & Hfile & Hsections & Hlevel).
    by rewrite (init_with_sections _ _ _ _ Hfile Hsections), Hlevel.
Qed.

Lemma store_constructed_iff_witness :
  default_files !! "config.yaml" = Some (YamlFile default_config) /\
  __init__ cpython_logging default_files "config.yaml" = Ok default_store.
Proof.
  split; [reflexivity|].
  apply (store_constructed_iff cpython_logging default_files "config.yaml" default_store).
  exists default_entries, (AInt 20). repeat split; try reflexivity.
  intros section Hin. simpl in Hin.
  repeat (destruct Hin as [<-|Hin]; [by eexists|]). destruct Hin.
Defined.



(** X3. Without a file that parses to a mapping there is no store. A
    missing path raises [FileNotFoundError] and an unparsable file
    [ValueError], each naming its cause. A document that is [None] (an empty
    file), a boolean or a number raises [TypeError] in the validation. A
    sequence or a string is searched for the section names like a mapping
    would be for its keys: it is refused with the [ValueError] of a missing
    section, or, when it happens to contain the four names, passes the
    validation and raises [AttributeError] in the logging setup. *)
Theorem no_store_without_mapping logmod fs path :
  (fs !! path = None ->
     __init__ logmod fs path = Raise (FileNotFoundError ("Configuration file not found: " ++ path))) /\
  (forall problem,
      fs !! path = Some (Unparsable problem) ->
      __init__ logmod fs path = Raise (ValueError ("Invalid YAML syntax in config file: " ++ problem))) /\
  (forall document,
      fs !! path = Some (YamlFile document) ->
      (forall entries, document <> VDict entries) ->
      match document with
      | VList _ | VStr _ =>
          (exists section,
              In section required_sections /\
              __init__ logmod fs path =
                Raise (ValueError ("Missing required configuration section: " ++ section))) \/
          (_validate_config document = Ok tt /\
           exists message, __init__ logmod fs path = Raise (AttributeError message))
      | _ => exists message, __init__ logmod fs path = Raise (TypeError message)
      end).
Proof.
  split; [|split].
  - intros Hnone. unfold __init__, _load_config. by rewrite Hnone.
  - intros problem Hfile. unfold __init__, _load_config. by rewrite Hfile.
  - intros document Hfile Hnot. rewrite (init_of_document _ _ _ _ Hfile).
    assert (forall container,
               match container with VList _ | VStr _ => True | _ => False end ->
               (exists section,
                   In section required_sections /\
                   _validate_config container =
                     Raise (ValueError ("Missing required configuration section: " ++ section))) \/
               _validate_config container = Ok tt) as Hsearch.
    { intros container Hc. unfold _validate_config, required_sections.
      destruct container; try destruct Hc; cbn [check_sections py_in bind];
        repeat match goal with
               | |- context [if ?b then _ else _] =>
                   destruct b; [|left; eexists; split; [|reflexivity]; simpl; tauto]
               end; by right. }
    destruct document as [| | | |s|items|entries];
      try (by eexists); try by destruct (Hnot entries).
    + destruct (Hsearch (VStr s) I) as [(section & Hin & ->)|Hok].
      * left. by exists section.
      * right. split; [done|]. rewrite Hok. by eexists.
    + destruct (Hsearch (VList items) I) as [(section & Hin & ->)|Hok].
      * left. by exists section.
      * right. split; [done|]. rewrite Hok. by eexists.
Qed.

Lemma no_store_without_mapping_witness :
  (exists message,
      __init__ cpython_logging {[ "config.yaml" := YamlFile VNone ]} "config.yaml" = Raise (TypeError message)) /\
  _validate_config list_of_sections = Ok tt /\
  (exists message,
      __init__ cpython_logging {[ "config.yaml" := YamlFile list_of_sections ]} "config.yaml" =
        Raise (AttributeError message)) /\
  __init__ cpython_logging ∅ "config.yaml" =
    Raise (FileNotFoundError "Configuration file not found: config.yaml").
Proof.
  split; [|split; [reflexivity|split]].
  - destruct (no_store_without_mapping cpython_logging {[ "config.yaml" := YamlFile VNone ]} "config.yaml")
      as (_ & _ & Hdocument).
    by apply (Hdocument VNone); [reflexivity|].
  - destruct (no_store_without_mapping cpython_logging {[ "config.yaml" := YamlFile list_of_sections ]}
                "config.yaml") as (_ & _ & Hdocument).
    destruct (Hdocument list_of_sections) as [(section & _ & Hmissing)|[_ Hraise]];
      [reflexivity | done | discriminate Hmissing | exact Hraise].
  - destruct (no_store_without_mapping cpython_logging ∅ "config.yaml") as (Hnone & _).
    apply Hnone. reflexivity.
Defined.

(** ** Accessors *)

(** X4. [get_database_config] does have a failure path after construction:
    it succeeds exactly when the [database] section is a mapping with both
    [name] and [schemas], and returns the two stored values; a section
    without [name] raises [KeyError] for [name], one with [name] and
    without [schemas] raises [KeyError] for [schemas]. *)
Theorem database_config_iff self entries :
  config self = VDict entries ->
  (forall db,
      get_database_config self = Ok db <->
      exists database,
        dict_get "database" entries = Some (VDict database) /\
        dict_get "name" database = Some (DatabaseConfig.name db) /\
        dict_get "schemas" database = Some (DatabaseConfig.schemas db)) /\
  (forall database,
      dict_get "database" entries = Some (VDict database) ->
      (dict_get "name" database = None ->
         get_database_config self = Raise (KeyError "'name'")) /\
      (is_Some (dict_get "name" database) -> dict_get "schemas" database = None ->
         get_database_config self = Raise (KeyError "'schemas'"))).
Proof.
  intros Hc. unfold get_database_config. rewrite Hc. cbn [py_getitem bind]. split.
  - intros db. split.
    + destruct (dict_get "database" entries) as [[| | | | | |database]|];
        cbn [py_getitem bind]; try discriminate.
      destruct (dict_get "name" database) as [name|] eqn:Hname; cbn [bind]; [|discriminate].
      destruct (dict_get "schemas" database) as [schemas|] eqn:Hschemas; cbn [bind];
        [|discriminate].
      intros [= <-]. by exists database.
    + intros (database & -> & Hname & Hschemas). cbn [py_getitem bind].
      rewrite Hname. cbn [bind]. rewrite Hschemas. cbn [bind]. by destruct db.
  - intros database ->. cbn [py_getitem bind]. split.
    + by intros ->.
    + intros [name ->] ->. done.
Qed.

Lemma database_config_iff_witness :
  config default_store = VDict default_entries /\
  get_database_config default_store =
    Ok {| DatabaseConfig.name := VStr "TASTY_BYTES";
          DatabaseConfig.schemas := VDict [ ("raw", VStr "RAW_DATA");
                                            ("harmonized", VStr "HARMONIZED");
                                            ("analytics", VStr "ANALYTICS") ] |} /\
  get_database_config
    {| config_path := "config.yaml";
       config := VDict [ ("database", VDict [ ("name", VStr "TASTY_BYTES") ]) ] |} =
    Raise (KeyError "'schemas'").
Proof.
  split; [reflexivity|]. split.
  - destruct (database_config_iff default_store default_entries) as [Hiff _]; [reflexivity|].
    apply Hiff. eexists. repeat split; reflexivity.
  - destruct (database_config_iff
                {| config_path := "config.yaml";
                   config := VDict [ ("database", VDict [ ("name", VStr "TASTY_BYTES") ]) ] |}
                [ ("database", VDict [ ("name", VStr "TASTY_BYTES") ]) ])
      as [_ Hfail]; [reflexivity|].
    destruct (Hfail [ ("name", VStr "TASTY_BYTES") ]) as [_ Hschemas]; [reflexivity|].
    apply Hschemas; [by eexists | reflexivity].
Defined.

Lemma make_rule_Ok item rule : make_rule item = Ok rule <-> reads_as item rule.
Proof.
  unfold make_rule, reads_as. split.
  - destruct item as [| | | | | |record]; try discriminate. cbn [py_getitem py_get bind].
    destruct (dict_get "name" record) as [name|] eqn:Hn; cbn [bind]; [|discriminate].
    destruct (dict_get "type" record) as [type|] eqn:Ht; cbn [bind]; [|discriminate].
    destruct (dict_get "threshold" record) as [threshold|] eqn:Hth; cbn [bind];
      [|discriminate].
    destruct (dict_get "critical" record) as [critical|] eqn:Hc; cbn [bind]; [|discriminate].
    intros [= <-]. by exists record.
  - intros (record & -> & Hn & Ht & Hth & Hc & Hr). cbn [py_getitem py_get bind].
    rewrite Hn. cbn [bind]. rewrite Ht. cbn [bind]. rewrite Hth. cbn [bind].
    rewrite Hc. cbn [bind]. rewrite <- Hr. by destruct rule.
Qed.

Lemma make_rules_Ok items rules : make_rules items = Ok rules <-> Forall2 reads_as items rules.
Proof.
  revert rules. induction items as [|item items IH]; intros rules; cbn [make_rules].
  - split.
    + intros [= <-]. constructor.
    + intros Hall. by apply Forall2_nil_inv_l in Hall as ->.
  - split.
    + destruct (make_rule item) as [rule|] eqn:Hrule; cbn [bind]; [|discriminate].
      destruct (make_rules items) as [rest|] eqn:Hrest; cbn [bind]; [|discriminate].
      intros [= <-]. constructor; [by apply make_rule_Ok | by apply IH].
    + intros Hall. apply Forall2_cons_inv_l in Hall as (rule & rest & Hrule & Hrest & ->).
      apply make_rule_Ok in Hrule as ->. apply IH in Hrest as ->. done.
Qed.

(** X5. [get_data_quality_rules] reads the rules in document order, one
    rule for each record and field by field: with [data_quality] a mapping
    it returns the empty list when [validation_rules] is absent, and for a
    list of records it returns [rules] exactly when the records read as
    [rules] one by one, so as many rules as records. *)
Theorem rules_in_document_order self entries quality :
  config self = VDict entries ->
  dict_get "data_quality" entries = Some (VDict quality) ->
  (dict_get "validation_rules" quality = None -> get_data_quality_rules self = Ok []) /\
  (forall items rules,
      dict_get "validation_rules" quality = Some (VList items) ->
      (get_data_quality_rules self = Ok rules <-> Forall2 reads_as items rules) /\
      (get_data_quality_rules self = Ok rules -> length rules = length items)).
Proof.
  intros Hc Hq. unfold get_data_quality_rules. rewrite Hc. cbn [py_get bind].
  rewrite Hq. cbn [from_option id py_get bind]. split.
  - by intros ->.
  - intros items rules ->. cbn [from_option id py_iter bind]. split.
    + apply make_rules_Ok.
    + intros Hall%make_rules_Ok. symmetry. by eapply Forall2_length.
Qed.

Lemma rules_in_document_order_witness :
  dict_get "data_quality" default_entries =
    Some (VDict [ ("validation_rules",
                    VList [ VDict [ ("name", VStr "null_check");
                                    ("type", VStr "completeness");
                                    ("threshold", VInt 95);
                                    ("critical", VBool true) ] ]) ]) /\
  get_data_quality_rules default_store =
    Ok [ {| DataQualityRule.name := VStr "null_check";
            DataQualityRule.type := VStr "completeness";
            DataQualityRule.threshold := VInt 95;
            DataQualityRule.critical := VBool true;
            DataQualityRule.rules := VNone |} ] /\
  get_data_quality_rules
    {| config_path := "config.yaml"; config := document_with_pipeline (VDict []) |} = Ok [].
Proof.
  split; [reflexivity|]. split.
  - destruct (rules_in_document_order default_store default_entries
                [ ("validation_rules",
                    VList [ VDict [ ("name", VStr "null_check");
                                    ("type", VStr "completeness");
                                    ("threshold", VInt 95);
                                    ("critical", VBool true) ] ]) ])
      as [_ Hlist]; [reflexivity..|].
    edestruct Hlist as [Hiff _]; [reflexivity|].
    apply Hiff. repeat constructor. eexists. repeat split; reflexivity.
  - destruct (rules_in_document_order
                {| config_path := "config.yaml"; config := document_with_pipeline (VDict []) |}
                [ ("database", VDict [ ("name", VStr "TASTY_BYTES"); ("schemas", VDict []) ]);
                  ("data_sources", VDict []);
                  ("data_quality", VDict []);
                  ("pipeline", VDict []) ]
                []) as [Habsent _]; [reflexivity..|].
    apply Habsent. reflexivity.
Defined.

Lemma make_rule_dict record :
  (exists rule,
      make_rule (VDict record) = Ok rule /\
      forall field, In field mandatory_rule_fields -> is_Some (dict_get field record)) \/
  (exists field,
      In field mandatory_rule_fields /\ make_rule (VDict record) = Raise (KeyError (repr_str field))).
Proof.
  unfold make_rule, mandatory_rule_fields. cbn [py_getitem py_get bind].
  destruct (dict_get "name" record) as [name|] eqn:Hn; cbn [bind];
    [|right; exists "name"; split; [simpl; tauto|done]].
  destruct (dict_get "type" record) as [type|] eqn:Ht; cbn [bind];
    [|right; exists "type"; split; [simpl; tauto|done]].
  destruct (dict_get "threshold" record) as [threshold|] eqn:Hth; cbn [bind];
    [|right; exists "threshold"; split; [simpl; tauto|done]].
  destruct (dict_get "critical" record) as [critical|] eqn:Hc; cbn [bind];
    [|right; exists "critical"; split; [simpl; tauto|done]].
  left. eexists. split; [reflexivity|]. intros field Hin. simpl in Hin.
  repeat (destruct Hin as [<-|Hin]; [by eexists|]). destruct Hin.
Qed.

Lemma make_rules_incomplete items :
  Forall (fun item => exists record, item = VDict record) items ->
  (exists record field,
      In (VDict record) items /\ In field mandatory_rule_fields /\
      dict_get field record = None) ->
  exists field,
    In field mandatory_rule_fields /\ make_rules items = Raise (KeyError (repr_str field)).
Proof.
  induction 1 as [|item items [record ->] _ IH]; intros (bad & field & Hin & Hfield & Hnone).
  - destruct Hin.
  - cbn [make_rules].
    destruct (make_rule_dict record) as [(rule & -> & Hcomplete)|(missing & Hmissing & ->)];
      cbn [bind]; [|by exists missing].
    destruct Hin as [[= ->]|Hin].
    + destruct (Hcomplete field Hfield) as [x Hx]. congruence.
    + destruct IH as (missing & Hmissing & ->); [by exists bad, field|].
      by exists missing.
Qed.

(** X6. One incomplete record spoils the whole list: when the records of
    [validation_rules] are mappings and one of them lacks [name], [type],
    [threshold] or [critical], [get_data_quality_rules] raises [KeyError]
    for a lacking field and returns no rule at all, and
    [validate_data_quality_thresholds] raises the same error instead of
    reporting the other rules. *)
Theorem incomplete_rule_raises self entries quality items :
  config self = VDict entries ->
  dict_get "data_quality" entries = Some (VDict quality) ->
  dict_get "validation_rules" quality = Some (VList items) ->
  Forall (fun item => exists record, item = VDict record) items ->
  (exists record field,
      In (VDict record) items /\ In field mandatory_rule_fields /\
      dict_get field record = None) ->
  exists field,
    In field mandatory_rule_fields /\
    get_data_quality_rules self = Raise (KeyError (repr_str field)) /\
    validate_data_quality_thresholds self = Raise (KeyError (repr_str field)).
Proof.
  intros Hc Hq Hv Hmappings Hbad.
  destruct (make_rules_incomplete items Hmappings Hbad) as (field & Hfield & Hraise).
  exists field. split; [done|].
  assert (get_data_quality_rules self = Raise (KeyError (repr_str field))) as Hget.
  { unfold get_data_quality_rules. rewrite Hc. cbn [py_get bind]. rewrite Hq.
    cbn [from_option id py_get bind]. rewrite Hv. by cbn [from_option id py_iter bind]. }
  split; [done|]. unfold validate_data_quality_thresholds. by rewrite Hget.
Qed.

Lemma incomplete_rule_raises_witness :
  dict_get "critical"
    [ ("name", VStr "row_count"); ("type", VStr "uniqueness"); ("threshold", VInt 100) ] = None /\
  exists field,
    In field mandatory_rule_fields /\
    validate_data_quality_thresholds
      {| config_path := "config.yaml"; config := document_with_rules rules_with_incomplete |} =
      Raise (KeyError (repr_str field)).
Proof.
  split; [reflexivity|].
  destruct (incomplete_rule_raises
              {| config_path := "config.yaml";
                 config := document_with_rules rules_with_incomplete |}
              [ ("database", VDict [ ("name", VStr "TASTY_BYTES"); ("schemas", VDict []) ]);
                ("data_sources", VDict []);
                ("data_quality", VDict [ ("validation_rules", VList rules_with_incomplete) ]);
                ("pipeline", VDict []) ]
              [ ("validation_rules", VList rules_with_incomplete) ] rules_with_incomplete)
    as (field & Hfield & _ & Hvalidate); [reflexivity.. | | |].
  - repeat constructor; by eexists.
  - exists [ ("name", VStr "row_count"); ("type", VStr "uniqueness"); ("threshold", VInt 100) ],
           "critical".
    split; [right; by left|]. split; [simpl; tauto | reflexivity].
  - by exists field.
Defined.

Lemma stage_init_recognised record :
  Forall (fun field => In field PipelineStage.fields) (dict_keys record) ->
  PipelineStage.init (VDict record) =
    Ok {| PipelineStage.batch_size := stage_field record "batch_size";
          PipelineStage.parallel_workers := stage_field record "parallel_workers";
          PipelineStage.error_handling := stage_field record "error_handling";
          PipelineStage.warehouse_size := stage_field record "warehouse_size";
          PipelineStage.timeout_minutes := stage_field record "timeout_minutes";
          PipelineStage.auto_suspend_minutes := stage_field record "auto_suspend_minutes";
          PipelineStage.export_formats := stage_field record "export_formats";
          PipelineStage.compression := stage_field record "compression" |}.
Proof.
  intros Hkeys. unfold PipelineStage.init.
  destruct (find _ (dict_keys record)) as [unexpected|] eqn:Hfind; [|done].
  apply find_some in Hfind as [Hin Hneg]. rewrite Forall_forall in Hkeys.
  apply list_elem_of_In, Hkeys in Hin. apply negb_true_iff in Hneg.
  unfold PipelineStage.is_field in Hneg.
  assert (existsb (String.eqb unexpected) PipelineStage.fields = true) as Hex.
  { apply existsb_exists. exists unexpected. split; [done|apply String.eqb_refl]. }
  congruence.
Qed.

(** X7. With [pipeline] and [pipeline.stages] mappings, a stage whose
    record has only keys among the eight fields is returned field by field,
    a field the record does not have being [None], so an empty record gives
    the all-[None] stage. A stage bound to anything but a mapping, such as
    the [None] of a stage written with no body, raises [TypeError]. *)
Theorem stage_config_returned self entries pipeline stages stage_name :
  config self = VDict entries ->
  dict_get "pipeline" entries = Some (VDict pipeline) ->
  dict_get "stages" pipeline = Some (VDict stages) ->
  (forall record,
      dict_get stage_name stages = Some (VDict record) ->
      Forall (fun field => In field PipelineStage.fields) (dict_keys record) ->
      exists stage,
        get_pipeline_stage_config self stage_name = Ok stage /\
        PipelineStage.batch_size stage = stage_field record "batch_size" /\
        PipelineStage.parallel_workers stage = stage_field record "parallel_workers" /\
        PipelineStage.error_handling stage = stage_field record "error_handling" /\
        PipelineStage.warehouse_size stage = stage_field record "warehouse_size" /\
        PipelineStage.timeout_minutes stage = stage_field record "timeout_minutes" /\
        PipelineStage.auto_suspend_minutes stage = stage_field record "auto_suspend_minutes" /\
        PipelineStage.export_formats stage = stage_field record "export_formats" /\
        PipelineStage.compression stage = stage_field record "compression") /\
  (forall other,
      dict_get stage_name stages = Some other ->
      (forall record, other <> VDict record) ->
      exists message, get_pipeline_stage_config self stage_name = Raise (TypeError message)).
Proof.
  intros Hc Hp Hs. unfold get_pipeline_stage_config. rewrite Hc.
  cbn [py_get bind]. rewrite Hp. cbn [py_get bind from_option id]. rewrite Hs.
  cbn [py_in py_getitem bind from_option id]. unfold dict_mem. split.
  - intros record -> Hkeys. cbn [negb bind].
    rewrite (stage_init_recognised record Hkeys). eexists. by repeat split.
  - intros other -> Hother. cbn [negb bind].
    destruct other as [| | | | | |record]; try by eexists. by destruct (Hother record).
Qed.

Lemma stage_config_returned_witness :
  dict_get "ingestion"
    [ ("ingestion", VDict [ ("batch_size", VInt 10000); ("parallel_workers", VInt 4) ]) ] =
    Some (VDict [ ("batch_size", VInt 10000); ("parallel_workers", VInt 4) ]) /\
  (exists stage,
      get_pipeline_stage_config default_store "ingestion" = Ok stage /\
      PipelineStage.batch_size stage = VInt 10000 /\
      PipelineStage.compression stage = VNone) /\
  exists message,
    get_pipeline_stage_config
      {| config_path := "config.yaml";
         config := document_with_pipeline (VDict [ ("stages", VDict [ ("export", VNone) ]) ]) |}
      "export" = Raise (TypeError message).
Proof.
  split; [reflexivity|]. split.
  - destruct (stage_config_returned default_store default_entries
                [ ("stages",
                    VDict [ ("ingestion",
                              VDict [ ("batch_size", VInt 10000);
                                      ("parallel_workers", VInt 4) ]) ]);
                  ("logging", VDict [ ("level", VStr "INFO") ]) ]
                [ ("ingestion",
                    VDict [ ("batch_size", VInt 10000); ("parallel_workers", VInt 4) ]) ]
                "ingestion") as [Hreturned _]; [reflexivity..|].
    destruct (Hreturned [ ("batch_size", VInt 10000); ("parallel_workers", VInt 4) ])
      as (stage & Hstage & Hbatch & _ & _ & _ & _ & _ & _ & Hcompression).
    + reflexivity.
    + repeat constructor; simpl; tauto.
    + by exists stage.
  - destruct (stage_config_returned
                {| config_path := "config.yaml";
                   config := document_with_pipeline
                               (VDict [ ("stages", VDict [ ("export", VNone) ]) ]) |}
                [ ("database", VDict [ ("name", VStr "TASTY_BYTES"); ("schemas", VDict []) ]);
                  ("data_sources", VDict []);
                  ("data_quality", VDict []);
                  ("pipeline", VDict [ ("stages", VDict [ ("export", VNone) ]) ]) ]
                [ ("stages", VDict [ ("export", VNone) ]) ]
                [ ("export", VNone) ] "export") as [_ Hother]; [reflexivity..|].
    by apply (Hother VNone).
Defined.

(** X8. On a constructed store [get_streamlit_config] and
    [get_monitoring_config] have no failure path: each returns the stored
    section as it is, whatever its type, and the empty mapping when the
    document has no such section. *)
Theorem optional_sections_pass_through logmod fs path self :
  __init__ logmod fs path = Ok self ->
  exists entries,
    config self = VDict entries /\
    get_streamlit_config self = Ok (from_option id (VDict []) (dict_get "streamlit" entries)) /\
    get_monitoring_config self = Ok (from_option id (VDict []) (dict_get "monitoring" entries)).
Proof.
  intros Hinit. destruct (init_Ok _ _ _ _ Hinit) as (entries & level & -> & _).
  by exists entries.
Qed.

Lemma optional_sections_pass_through_witness :
  __init__ cpython_logging default_files "config.yaml" = Ok default_store /\
  get_streamlit_config default_store = Ok (VDict []) /\
  get_monitoring_config default_store = Ok (VDict []).
Proof.
  split; [reflexivity|].
  destruct (optional_sections_pass_through cpython_logging default_files "config.yaml"
              default_store)
    as (entries & Hentries & -> & ->); [reflexivity|].
  by injection Hentries as <-.
Defined.

(** ** The summary *)

Lemma config_summary_of_parts self entries db rules sources pipeline :
  config self = VDict entries ->
  get_database_config self = Ok db ->
  get_data_quality_rules self = Ok rules ->
  dict_get "data_sources" entries = Some (VDict sources) ->
  dict_get "pipeline" entries = Some (VDict pipeline) ->
  (dict_get "stages" pipeline = None \/
   exists stages, dict_get "stages" pipeline = Some (VDict stages)) ->
  (dict_get "monitoring" entries = None \/
   exists monitoring, dict_get "monitoring" entries = Some (VDict monitoring)) ->
  get_config_summary self =
    Ok [ ("database", DatabaseConfig.name db);
         ("data_sources", VList (map VStr (dict_keys sources)));
         ("data_quality_rules", VInt (Z.of_nat (length rules)));
         ("pipeline_stages", VList (map VStr (dict_keys (stored_section "stages" pipeline))));
         ("monitoring_enabled",
           from_option id (VBool false)
             (dict_get "enabled" (stored_section "monitoring" entries)));
         ("config_file", VStr (config_path self)) ].
Proof.
  intros Hc Hdb Hrules Hsources Hpipeline Hstages Hmonitoring.
  unfold get_config_summary, stored_section. rewrite Hdb, Hrules, Hc.
  cbn [py_get bind]. rewrite Hsources, Hpipeline. cbn [from_option id py_get py_keys bind].
  destruct Hstages as [->|[stages ->]], Hmonitoring as [->|[monitoring ->]];
    by cbn [from_option id py_get py_keys bind].
Qed.

(** X9. The summary of a store whose parts are readable: the database name,
    the names of the data sources and of the pipeline stages in document
    order, the number of data-quality rules as [get_data_quality_rules]
    returns them, the [enabled] entry of [monitoring] and [False] without
    one, and the path of the store, under six keys in this order. *)
Theorem config_summary_entries self entries db rules sources pipeline :
  config self = VDict entries ->
  get_database_config self = Ok db ->
  get_data_quality_rules self = Ok rules ->
  dict_get "data_sources" entries = Some (VDict sources) ->
  dict_get "pipeline" entries = Some (VDict pipeline) ->
  (dict_get "stages" pipeline = None \/
   exists stages, dict_get "stages" pipeline = Some (VDict stages)) ->
  (dict_get "monitoring" entries = None \/
   exists monitoring, dict_get "monitoring" entries = Some (VDict monitoring)) ->
  exists summary,
    get_config_summary self = Ok summary /\
    dict_keys summary =
      [ "database"; "data_sources"; "data_quality_rules"; "pipeline_stages";
        "monitoring_enabled"; "config_file" ] /\
    dict_get "database" summary = Some (DatabaseConfig.name db) /\
    dict_get "data_sources" summary = Some (VList (map VStr (dict_keys sources))) /\
    dict_get "data_quality_rules" summary = Some (VInt (Z.of_nat (length rules))) /\
    dict_get "pipeline_stages" summary =
      Some (VList (map VStr (dict_keys (stored_section "stages" pipeline)))) /\
    dict_get "monitoring_enabled" summary =
      Some (from_option id (VBool false)
              (dict_get "enabled" (stored_section "monitoring" entries))) /\
    dict_get "config_file" summary = Some (VStr (config_path self)).
Proof.
  intros Hc Hdb Hrules Hsources Hpipeline Hstages Hmonitoring.
  eexists. split; [by eapply config_summary_of_parts|]. by repeat split.
Qed.

Lemma config_summary_entries_witness :
  get_data_quality_rules default_store =
    Ok [ {| DataQualityRule.name := VStr "null_check";
            DataQualityRule.type := VStr "completeness";
            DataQualityRule.threshold := VInt 95;
            DataQualityRule.critical := VBool true;
            DataQualityRule.rules := VNone |} ] /\
  exists summary,
    get_config_summary default_store = Ok summary /\
    dict_get "data_quality_rules" summary = Some (VInt 1) /\
    dict_get "data_sources" summary = Some (VList [ VStr "weather_data" ]) /\
    dict_get "pipeline_stages" summary = Some (VList [ VStr "ingestion" ]) /\
    dict_get "monitoring_enabled" summary = Some (VBool false).
Proof.
  split; [reflexivity|].
  edestruct (config_summary_entries default_store default_entries)
    as (summary & Hsummary & _ & _ & Hsources & Hrules & Hstages & Hmonitoring & _);
    [reflexivity | reflexivity | reflexivity | reflexivity | reflexivity
    | right; by eexists | by left |].
  exists summary. by repeat split.
Defined.

(** ** More on the validation of thresholds *)

Lemma int_le_number_spec a n : int_le_number a n = true <-> at_least a n.
Proof.
  destruct n as [z|[|negative|q]]; simpl.
  - apply Z.leb_le.
  - done.
  - by destruct negative.
  - apply Qle_bool_iff.
Qed.

Lemma number_le_int_spec n b : number_le_int n b = true <-> at_most n b.
Proof.
  destruct n as [z|[|negative|q]]; simpl.
  - apply Z.leb_le.
  - done.
  - by destruct negative.
  - apply Qle_bool_iff.
Qed.

(** X10. For a rule whose threshold is a number other than not-a-number
    (an integer, a boolean counting as 0 or 1, a finite float or an
    infinity) [is_valid] does not raise and decides the bounds, both
    inclusive: a completeness or uniqueness rule is valid exactly when
    [0 <= threshold <= 100], a timeliness rule exactly when
    [threshold >= 0], and a rule of any other type is valid. *)
Theorem validity_bounds rule n :
  as_number (DataQualityRule.threshold rule) = Some n ->
  n <> NFloat FNan ->
  exists valid,
    is_valid rule = Ok valid /\
    (DataQualityRule.type rule = VStr "completeness" \/
     DataQualityRule.type rule = VStr "uniqueness" ->
       (valid = true <-> at_least 0 n /\ at_most n 100)) /\
    (DataQualityRule.type rule = VStr "timeliness" -> (valid = true <-> at_least 0 n)) /\
    (is_checked (DataQualityRule.type rule) = false -> valid = true).
Proof.
  intros Hn Hnan. rewrite (is_valid_meets_invariant rule n Hn Hnan).
  eexists. split; [reflexivity|]. unfold threshold_invariant, is_checked, checked_types.
  split; [|split].
  - intros Htype.
    assert (py_eq_str (DataQualityRule.type rule) "completeness"
            || py_eq_str (DataQualityRule.type rule) "uniqueness" = true) as ->
      by (by destruct Htype as [->| ->]).
    by rewrite andb_true_iff, int_le_number_spec, number_le_int_spec.
  - intros ->. cbn. apply int_le_number_spec.
  - cbn [existsb]. intros Hunchecked.
    apply orb_false_iff in Hunchecked as [Hc Hrest].
    apply orb_false_iff in Hrest as [Hu Hrest].
    apply orb_false_iff in Hrest as [Ht _]. by rewrite Hc, Hu, Ht.
Qed.

Lemma validity_bounds_witness :
  as_number (VInt 100) = Some (NInt 100) /\
  is_valid {| DataQualityRule.name := VStr "null_check";
              DataQualityRule.type := VStr "completeness";
              DataQualityRule.threshold := VInt 100;
              DataQualityRule.critical := VBool true;
              DataQualityRule.rules := VNone |} = Ok true /\
  is_valid {| DataQualityRule.name := VStr "null_check";
              DataQualityRule.type := VStr "completeness";
              DataQualityRule.threshold := VInt 101;
              DataQualityRule.critical := VBool true;
              DataQualityRule.rules := VNone |} <> Ok true.
Proof.
  split; [reflexivity|]. split.
  - destruct (validity_bounds
                {| DataQualityRule.name := VStr "null_check";
                   DataQualityRule.type := VStr "completeness";
                   DataQualityRule.threshold := VInt 100;
                   DataQualityRule.critical := VBool true;
                   DataQualityRule.rules := VNone |} (NInt 100))
      as (valid & -> & Hbounds & _); [reflexivity | discriminate |].
    f_equal. apply Hbounds; [by left|]. simpl. lia.
  - destruct (validity_bounds
                {| DataQualityRule.name := VStr "null_check";
                   DataQualityRule.type := VStr "completeness";
                   DataQualityRule.threshold := VInt 101;
                   DataQualityRule.critical := VBool true;
                   DataQualityRule.rules := VNone |} (NInt 101))
      as (valid & -> & Hbounds & _); [reflexivity | discriminate |].
    intros [= ->]. destruct Hbounds as [Hbounds _]; [by left|].
    destruct (Hbounds eq_refl) as [_ Hmost]. simpl in Hmost. lia.
Defined.

Lemma is_valid_unchecked rule :
  is_checked (DataQualityRule.type rule) = false -> is_valid rule = Ok true.
Proof.
  unfold is_checked, checked_types. cbn [existsb]. intros Hunchecked.
  apply orb_false_iff in Hunchecked as [Hc Hrest].
  apply orb_false_iff in Hrest as [Hu Hrest].
  apply orb_false_iff in Hrest as [Ht _].
  unfold is_valid. by rewrite Hc, Hu, Ht.
Qed.

Lemma is_valid_not_a_number rule :
  as_number (DataQualityRule.threshold rule) = None ->
  is_checked (DataQualityRule.type rule) = true ->
  exists message, is_valid rule = Raise (TypeError message).
Proof.
  intros Hn. unfold is_checked, checked_types, is_valid, py_between, py_lt_int.
  rewrite Hn. cbn [existsb].
  destruct (py_eq_str (DataQualityRule.type rule) "completeness"); cbn [bind orb];
    [by eexists|].
  destruct (py_eq_str (DataQualityRule.type rule) "uniqueness"); cbn [bind orb];
    [by eexists|].
  destruct (py_eq_str (DataQualityRule.type rule) "timeliness"); cbn [bind orb];
    [by eexists|discriminate].
Qed.

Lemma is_valid_raises_TypeError rule e : is_valid rule = Raise e -> exists message, e = TypeError message.
Proof.
  unfold is_valid, py_between, py_lt_int, not_supported.
  destruct (as_number (DataQualityRule.threshold rule)) as [n|];
    destruct (py_eq_str (DataQualityRule.type rule) "completeness");
    destruct (py_eq_str (DataQualityRule.type rule) "uniqueness");
    destruct (py_eq_str (DataQualityRule.type rule) "timeliness");
    cbn [bind negb];
    repeat match goal with
           | |- context [if ?b then _ else _] => destruct b; cbn [bind negb]
           end;
    intros [= <-] || discriminate; by eexists.
Qed.

Lemma validate_rules_not_a_number rules validation_results :
  (exists rule,
      In rule rules /\
      as_number (DataQualityRule.threshold rule) = None /\
      is_checked (DataQualityRule.type rule) = true) ->
  exists message, validate_rules rules validation_results = Raise (TypeError message).
Proof.
  revert validation_results.
  induction rules as [|rule rest IH]; intros acc (bad & Hin & Hn & Hchecked); [destruct Hin|].
  cbn [validate_rules].
  destruct (is_valid rule) as [valid|e] eqn:Hvalid; cbn [bind].
  - destruct (rule_key (DataQualityRule.name rule)) as [key|e] eqn:Hkey; cbn [bind].
    + destruct Hin as [->|Hin].
      * destruct (is_valid_not_a_number bad Hn Hchecked) as [message Hraise]. congruence.
      * apply IH. by exists bad.
    + unfold rule_key in Hkey.
      destruct (DataQualityRule.name rule); try discriminate; injection Hkey as <-;
        by eexists.
  - destruct (is_valid_raises_TypeError _ _ Hvalid) as [message ->]. by eexists.
Qed.

(** X11. The threshold of a rule is compared only when the rule is of type
    completeness, uniqueness or timeliness. A rule of another type is valid
    whatever its threshold is, a number or not. A rule of one of the three
    types whose threshold is not a number (a string, [None], a list, a
    mapping) makes [validate_data_quality_thresholds] raise [TypeError],
    wherever the rule stands in the list: nothing is reported then. *)
Theorem non_numeric_threshold self rules :
  get_data_quality_rules self = Ok rules ->
  (forall rule,
      In rule rules -> is_checked (DataQualityRule.type rule) = false ->
      is_valid rule = Ok true) /\
  ((exists rule,
       In rule rules /\
       as_number (DataQualityRule.threshold rule) = None /\
       is_checked (DataQualityRule.type rule) = true) ->
   exists message, validate_data_quality_thresholds self = Raise (TypeError message)).
Proof.
  intros Hrules. split.
  - intros rule _. apply is_valid_unchecked.
  - intros Hbad. unfold validate_data_quality_thresholds. rewrite Hrules. cbn [bind].
    by apply validate_rules_not_a_number.
Qed.

Lemma non_numeric_threshold_witness :
  (exists rules,
      get_data_quality_rules
        {| config_path := "config.yaml";
           config := document_with_rules
                       [ rule_record "null_check" "completeness" (VInt 95);
                         rule_record "fresh" "timeliness" (VStr "1 day") ] |} = Ok rules) /\
  (exists message,
      validate_data_quality_thresholds
        {| config_path := "config.yaml";
           config := document_with_rules
                       [ rule_record "null_check" "completeness" (VInt 95);
                         rule_record "fresh" "timeliness" (VStr "1 day") ] |} =
        Raise (TypeError message)) /\
  validate_data_quality_thresholds
    {| config_path := "config.yaml";
       config := document_with_rules [ rule_record "range" "accuracy" (VStr "high") ] |} =
    Ok [ (VStr "range", true) ].
Proof.
  split; [by eexists|]. split; [|reflexivity].
  edestruct (non_numeric_threshold
               {| config_path := "config.yaml";
                  config := document_with_rules
                              [ rule_record "null_check" "completeness" (VInt 95);
                                rule_record "fresh" "timeliness" (VStr "1 day") ] |})
    as [_ Hraise]; [reflexivity|].
  apply Hraise. eexists. split; [right; left; reflexivity|]. by split.
Defined.

(** Reports keyed by strings. *)

Lemma pydict_set_str {A : Type} key (x : A) d :
  pydict_set (VStr key) x (str_keys d) = str_keys (dict_set key x d).
Proof.
  unfold str_keys. induction d as [|[k y] d IH]; cbn [map pydict_set dict_set fst snd]; [done|].
  change (key_eqb (VStr k) (VStr key)) with (String.eqb k key).
  destruct (String.eqb k key) eqn:E; cbn [map fst snd].
  - by apply String.eqb_eq in E as ->.
  - by rewrite IH.
Qed.

Lemma pydict_get_str {A : Type} key (d : list (string * A)) :
  pydict_get (VStr key) (str_keys d) = dict_get key d.
Proof.
  unfold str_keys. induction d as [|[k y] d IH]; cbn [map pydict_get dict_get fst snd]; [done|].
  change (key_eqb (VStr k) (VStr key)) with (String.eqb k key).
  by destruct (String.eqb k key).
Qed.

Lemma validate_rules_dom rules d :
  Forall (fun rule => well_typed_rule rule = true) rules ->
  exists d',
    validate_rules rules (str_keys d) = Ok (str_keys d') /\
    (forall name, In name (dict_keys d') <-> In name (rule_names rules) \/ In name (dict_keys d)) /\
    (NoDup (dict_keys d) -> NoDup (dict_keys d')) /\
    length (rule_names rules) = length rules.
Proof.
  intros Htyped. revert d.
  induction Htyped as [|rule rest Hrule _ IH]; intros d.
  - exists d. split; [done|]. split; [|done]. cbn. tauto.
  - unfold well_typed_rule in Hrule.
    destruct (DataQualityRule.name rule) as [| | | |key| |] eqn:Hname; try discriminate.
    destruct (as_number (DataQualityRule.threshold rule)) as [n|] eqn:Hn; [|discriminate].
    pose proof (is_valid_number rule n Hn) as Hvalid.
    destruct (is_valid rule) as [valid|] eqn:Hv; [clear Hvalid|discriminate Hvalid].
    cbn [validate_rules]. rewrite Hv, Hname. cbn [bind rule_key]. rewrite pydict_set_str.
    destruct (IH (dict_set key valid d)) as (d' & -> & Hkeys & Hdistinct & Hlen).
    exists d'. split; [done|]. unfold rule_names in *. cbn [omap list_omap].
    rewrite Hname. cbn [length]. split; [|split; [|by rewrite Hlen]].
    + intros name. rewrite Hkeys, dict_keys_set. cbn [In].
      destruct (dict_mem key d) eqn:Hmem.
      * apply dict_keys_In in Hmem. split; [tauto|]. intros [[<-|H]|H]; tauto.
      * rewrite in_app_iff. cbn [In]. tauto.
    + intros Hd. by apply Hdistinct, dict_set_NoDup.
Qed.

Lemma str_keys_In {A : Type} name (x : A) d : In (VStr name, x) (str_keys d) <-> In (name, x) d.
Proof.
  unfold str_keys. rewrite in_map_iff. split.
  - intros ([k y] & [= -> ->] & Hin). done.
  - intros Hin. by exists (name, x).
Qed.

Lemma dict_keys_entry {A : Type} name (d : list (string * A)) :
  In name (dict_keys d) <-> exists x, In (name, x) d.
Proof.
  unfold dict_keys. rewrite in_map_iff. split.
  - intros ([k x] & <- & Hin). by exists x.
  - intros [x Hin]. by exists (name, x).
Qed.

Lemma NoDup_map_VStr (names : list string) : NoDup names -> NoDup (map VStr names).
Proof.
  induction 1 as [|name names Hname _ IH]; cbn [map]; constructor; [|done].
  rewrite list_elem_of_In, in_map_iff. intros (other & [= ->] & Hin%list_elem_of_In). done.
Qed.

(** X12. The report of [validate_data_quality_thresholds] is keyed by name,
    not by rule: for well-typed rules its keys are exactly the names of the
    rules, each once, so it has at most as many entries as there are rules,
    and as many when the names are distinct. Rules that share a name share
    one entry. *)
Theorem report_keyed_by_name self rules :
  get_data_quality_rules self = Ok rules ->
  Forall (fun rule => well_typed_rule rule = true) rules ->
  exists validation_results,
    validate_data_quality_thresholds self = Ok validation_results /\
    (forall name,
        (exists valid, In (VStr name, valid) validation_results) <->
        exists rule, In rule rules /\ DataQualityRule.name rule = VStr name) /\
    (forall key valid, In (key, valid) validation_results -> exists name, key = VStr name) /\
    NoDup (map fst validation_results) /\
    (length validation_results <= length rules)%nat /\
    (NoDup (rule_names rules) -> length validation_results = length rules).
Proof.
  intros Hrules Htyped. unfold validate_data_quality_thresholds. rewrite Hrules.
  cbn [bind].
  destruct (validate_rules_dom rules [] Htyped) as (d' & Hvalidate & Hkeys & Hdistinct & Hlen).
  change (str_keys []) with (@nil (value * bool)) in Hvalidate. rewrite Hvalidate.
  exists (str_keys d'). split; [done|].
  assert (forall name, In name (dict_keys d') <-> In name (rule_names rules)) as Hnames.
  { intros name. rewrite Hkeys. cbn. tauto. }
  assert (NoDup (dict_keys d')) as Hd' by apply Hdistinct, NoDup_nil_2.
  assert (length (str_keys d') = length (dict_keys d')) as Hsize.
  { unfold str_keys, dict_keys. by rewrite !length_map. }
  assert (map fst (str_keys d') = map VStr (dict_keys d')) as Hfst.
  { unfold str_keys, dict_keys. rewrite !map_map. done. }
  split; [|split; [|split; [|split]]].
  - intros name. setoid_rewrite str_keys_In. rewrite <- dict_keys_entry, Hnames.
    unfold rule_names. rewrite <- list_elem_of_In, list_elem_of_omap. split.
    + intros (rule & Hin & Hname). exists rule. rewrite <- list_elem_of_In. split; [done|].
      destruct (DataQualityRule.name rule); try discriminate. by injection Hname as ->.
    + intros (rule & Hin & Hname). exists rule. rewrite list_elem_of_In. split; [done|].
      by rewrite Hname.
  - intros key valid Hin. unfold str_keys in Hin. apply in_map_iff in Hin as ([k x] & [= <- _] & _).
    by exists k.
  - rewrite Hfst. by apply NoDup_map_VStr.
  - rewrite Hsize, <- Hlen. apply submseteq_length, NoDup_submseteq; [done|].
    intros name. rewrite !list_elem_of_In. apply Hnames.
  - intros Hrules_distinct. rewrite Hsize, <- Hlen. apply Nat.le_antisymm.
    + apply submseteq_length, NoDup_submseteq; [done|].
      intros name. rewrite !list_elem_of_In. apply Hnames.
    + apply submseteq_length, NoDup_submseteq; [done|].
      intros name. rewrite !list_elem_of_In. apply Hnames.
Qed.

Lemma report_keyed_by_name_witness :
  exists rules validation_results,
    get_data_quality_rules store_with_duplicates = Ok rules /\
    Forall (fun rule => well_typed_rule rule = true) rules /\
    length rules = 3%nat /\
    validate_data_quality_thresholds store_with_duplicates = Ok validation_results /\
    (length validation_results <= 3)%nat /\
    exists valid, In (VStr "row_count", valid) validation_results.
Proof.
  destruct (get_data_quality_rules store_with_duplicates) as [rules|] eqn:Hrules;
    [|discriminate Hrules].
  assert (Forall (fun rule => well_typed_rule rule = true) rules) as Htyped.
  { injection Hrules as <-. repeat constructor. }
  destruct (report_keyed_by_name store_with_duplicates rules Hrules Htyped)
    as (validation_results & Hvalidate & Hkeys & _ & _ & Hsize & _).
  assert (length rules = 3%nat) as Hlen by (by injection Hrules as <-).
  exists rules, validation_results. repeat split; try done.
  - by rewrite <- Hlen.
  - apply Hkeys. injection Hrules as <-. eexists. split; [right; left; reflexivity|done].
Defined.

(** Equality of keys. *)

Lemma number_eqb_class a b : number_eqb a b = true <-> number_equal a b.
Proof.
  unfold number_equal.
  destruct a as [x|[|s|p]], b as [y|[|t|q]]; cbn [number_eqb number_class];
    try (split; [discriminate|tauto]).
  - by rewrite Z.eqb_eq, inject_Z_injective.
  - apply Qeq_bool_iff.
  - apply Bool.eqb_true_iff.
  - apply Qeq_bool_iff.
  - apply Qeq_bool_iff.
Qed.

Lemma number_eqb_sym a b : number_eqb a b = true -> number_eqb b a = true.
Proof.
  rewrite !number_eqb_class. unfold number_equal.
  destruct (number_class a) as [[p|s]|], (number_class b) as [[q|t]|]; try done.
Qed.

Lemma number_eqb_trans a b c :
  number_eqb a b = true -> number_eqb b c = true -> number_eqb a c = true.
Proof.
  rewrite !number_eqb_class. unfold number_equal.
  destruct (number_class a) as [[p|s]|], (number_class b) as [[q|t]|],
    (number_class c) as [[r|u]|]; try done.
  - intros H1 H2. by rewrite H1.
  - congruence.
Qed.

Lemma key_eqb_sym a b : key_eqb a b = true -> key_eqb b a = true.
Proof.
  unfold key_eqb.
  destruct (as_number a) as [x|] eqn:Ha, (as_number b) as [y|] eqn:Hb; try done.
  - apply number_eqb_sym.
  - destruct a, b; try done. intros ->%String.eqb_eq. apply String.eqb_refl.
Qed.

Lemma key_eqb_trans a b c :
  key_eqb a b = true -> key_eqb b c = true -> key_eqb a c = true.
Proof.
  unfold key_eqb.
  destruct (as_number a) as [x|] eqn:Ha, (as_number b) as [y|] eqn:Hb,
    (as_number c) as [z|] eqn:Hc; try done.
  - apply number_eqb_trans.
  - destruct a, b; try done; destruct c; try done.
    intros ->%String.eqb_eq ->%String.eqb_eq. apply String.eqb_refl.
Qed.



Lemma key_eqb_str v s : key_eqb v (VStr s) = py_eq_str v s.
Proof. by destruct v. Qed.

Lemma key_eqb_str_eq k s : key_eqb k (VStr s) = true -> k = VStr s.
Proof.
  rewrite key_eqb_str. destruct k; try discriminate. by intros ->%String.eqb_eq.
Qed.

(** The entries of a report under a name, through an assignment. *)

Section report_facts.
Context {A : Type}.
Implicit Types (d : list (value * A)) (x : A).

Lemma entries_named_set_ne key name x d :
  key_eqb key name = false ->
  entries_named name (pydict_set key x d) = entries_named name d.
Proof.
  intros Hne. unfold entries_named.
  induction d as [|[k y] d IH]; cbn [pydict_set List.filter fst].
  - by rewrite Hne.
  - destruct (key_eqb k key) eqn:Hk; cbn [List.filter fst].
    + assert (key_eqb k name = false) as ->; [|done].
      destruct (key_eqb k name) eqn:Hkn; [|done].
      by rewrite (key_eqb_trans key k name (key_eqb_sym _ _ Hk) Hkn) in Hne.
    + by rewrite IH.
Qed.

Lemma entries_named_set_eq key name x d :
  key_eqb key name = true ->
  (length (entries_named name d) <= 1)%nat ->
  exists k, entries_named name (pydict_set key x d) = [(k, x)].
Proof.
  intros Heq. unfold entries_named.
  induction d as [|[k y] d IH]; cbn [pydict_set List.filter fst]; intros Hone.
  - rewrite Heq. by exists key.
  - destruct (key_eqb k key) eqn:Hk; cbn [List.filter fst].
    + rewrite (key_eqb_trans k key name Hk Heq) in Hone |- *.
      exists k. f_equal.
      destruct (List.filter _ d); [done|]. cbn [length] in Hone. lia.
    + assert (key_eqb k name = false) as Hkn.
      { destruct (key_eqb k name) eqn:Hkn; [|done].
        by rewrite (key_eqb_trans k name key Hkn (key_eqb_sym _ _ Heq)) in Hk. }
      rewrite Hkn in Hone |- *. by apply IH.
Qed.

Lemma entries_named_set_one key x d :
  (forall name, (length (entries_named name d) <= 1)%nat) ->
  forall name, (length (entries_named name (pydict_set key x d)) <= 1)%nat.
Proof.
  intros Hone name. destruct (key_eqb key name) eqn:Hk.
  - by destruct (entries_named_set_eq key name x d Hk (Hone name)) as [k ->].
  - by rewrite entries_named_set_ne.
Qed.

Lemma pydict_get_named name d :
  pydict_get name d =
  match entries_named name d with
  | [] => None
  | entry :: _ => Some (snd entry)
  end.
Proof.
  unfold entries_named.
  induction d as [|[k y] d IH]; cbn [pydict_get List.filter fst]; [done|].
  by destruct (key_eqb k name).
Qed.
End report_facts.

(** The judgement of one rule. *)

Lemma py_eq_str_true v s : py_eq_str v s = true <-> v = VStr s.
Proof.
  destruct v; cbn [py_eq_str]; try (split; discriminate).
  rewrite String.eqb_eq. split; [by intros ->|by intros [= ->]].
Qed.

Lemma number_lt_int_spec n b : number_lt_int n b = true <-> below n b.
Proof.
  destruct n as [z|[|negative|q]]; cbn [number_lt_int below].
  - apply Z.ltb_lt.
  - done.
  - done.
  - rewrite negb_true_iff. split.
    + intros Hle. apply Qnot_le_lt. intros H%Qle_bool_iff. congruence.
    + intros Hlt. destruct (Qle_bool (inject_Z b) q) eqn:E; [|done].
      apply Qle_bool_iff in E. by apply Qlt_not_le in Hlt.
Qed.

Lemma is_checked_true type :
  is_checked type = true <->
  type = VStr "completeness" \/ type = VStr "uniqueness" \/ type = VStr "timeliness".
Proof.
  unfold is_checked, checked_types. cbn [existsb].
  rewrite !orb_true_iff, !py_eq_str_true. intuition discriminate.
Qed.


(** [is_valid] decides the bounds of the type, and raises only for a
    threshold it cannot compare. *)
Lemma is_valid_within_bounds rule :
  negb (is_checked (DataQualityRule.type rule)) || is_number (DataQualityRule.threshold rule)
  = true ->
  exists valid,
    is_valid rule = Ok valid /\
    (valid = true <->
     within_bounds (DataQualityRule.type rule) (DataQualityRule.threshold rule)).
Proof.
  intros Hcan. destruct (is_checked (DataQualityRule.type rule)) eqn:Hchecked.
  - cbn [negb orb] in Hcan. unfold is_number in Hcan.
    destruct (as_number (DataQualityRule.threshold rule)) as [n|] eqn:Hn; [|discriminate].
    rewrite (is_valid_number rule n Hn). eexists. split; [reflexivity|].
    unfold within_bounds. rewrite Hn.
    apply is_checked_true in Hchecked as [Htype|[Htype|Htype]]; rewrite Htype;
      cbn [py_eq_str String.eqb Ascii.eqb Bool.eqb orb].
    + rewrite andb_true_iff, int_le_number_spec, number_le_int_spec. split.
      * intros Hbounds. split; [|discriminate]. intros _. by exists n.
      * intros [Hbounds _]. destruct Hbounds as (n' & [= <-] & Hbounds); [by left|done].
    + rewrite andb_true_iff, int_le_number_spec, number_le_int_spec. split.
      * intros Hbounds. split; [|discriminate]. intros _. by exists n.
      * intros [Hbounds _]. destruct Hbounds as (n' & [= <-] & Hbounds); [by right|done].
    + rewrite negb_true_iff, <- not_true_iff_false, number_lt_int_spec. split.
      * intros Hbound. split; [intros [|]; discriminate|]. intros _. by exists n.
      * intros [_ Hbound]. by destruct Hbound as (n' & [= <-] & Hbound).
  - rewrite (is_valid_unchecked rule Hchecked). exists true. split; [done|].
    split; [|done]. intros _.
    assert (is_checked (DataQualityRule.type rule) <> true) as Hnot by congruence.
    rewrite is_checked_true in Hnot. unfold within_bounds. split; intros Htype; tauto.
Qed.


Lemma rule_key_hashable name : hashable name = true -> rule_key name = Ok name.
Proof. by destruct name. Qed.

(** The loop of [validate_data_quality_thresholds] over rules it can
    report: under every name the report ends with one entry, the judgement
    of the last rule of that name, or with the entries it began with when no
    rule has the name. *)
Lemma validate_rules_last rules validation_results :
  forallb rule_reportable rules = true ->
  (forall name, (length (entries_named name validation_results) <= 1)%nat) ->
  exists results,
    validate_rules rules validation_results = Ok results /\
    forall name,
      match List.find (fun rule => key_eqb (DataQualityRule.name rule) name) (rev rules) with
      | Some last =>
          exists key valid,
            entries_named name results = [(key, valid)] /\ is_valid last = Ok valid
      | None => entries_named name results = entries_named name validation_results
      end.
Proof.
  revert validation_results.
  induction rules as [|rule rest IH]; intros acc Hall Hone.
  - exists acc. split; [done|]. by intros name.
  - cbn [forallb] in Hall. apply andb_true_iff in Hall as [Hrule Hrest].
    unfold rule_reportable in Hrule. apply andb_true_iff in Hrule as [Hname Hcan].
    destruct (is_valid_within_bounds rule Hcan) as (valid & Hvalid & _).
    cbn [validate_rules]. rewrite Hvalid, (rule_key_hashable _ Hname). cbn [bind].
    destruct (IH (pydict_set (DataQualityRule.name rule) valid acc) Hrest)
      as (results & -> & Hresults); [by apply entries_named_set_one|].
    exists results. split; [done|]. intros name. specialize (Hresults name).
    cbn [rev]. rewrite find_app_last.
    destruct (List.find _ (rev rest)) as [last|]; [done|].
    destruct (key_eqb (DataQualityRule.name rule) name) eqn:Hkey.
    + destruct (entries_named_set_eq (DataQualityRule.name rule) name valid acc Hkey (Hone name))
        as [key Hentry].
      exists key, valid. by rewrite Hresults.
    + by rewrite Hresults, entries_named_set_ne.
Qed.


(** From the records of the document to the rules. *)




















Lemma find_ext {A : Type} (f g : A -> bool) (l : list A) :
  (forall x, f x = g x) -> List.find f l = List.find g l.
Proof.
  intros Hfg. induction l as [|x l IH]; cbn [List.find]; [done|]. by rewrite Hfg, IH.
Qed.

(** Apart from not-a-number, a store with well-typed rules is validated
    against the invariant of the data model, rule by rule. *)
Lemma thresholds_meet_invariant self rules :
  get_data_quality_rules self = Ok rules ->
  Forall (fun rule => well_typed_rule rule = true) rules ->
  Forall (fun rule => DataQualityRule.threshold rule <> VFloat FNan) rules ->
  exists validation_results,
    validate_data_quality_thresholds self = Ok validation_results /\
    forall name last,
      last_named name rules = Some last ->
      exists n,
        as_number (DataQualityRule.threshold last) = Some n /\
        pydict_get (VStr name) validation_results =
          Some (threshold_invariant (DataQualityRule.type last) n).
Proof.
  intros Hrules Htyped Hnan. unfold validate_data_quality_thresholds. rewrite Hrules.
  cbn [bind].
  assert (forallb rule_reportable rules = true) as Hall.
  { apply forallb_forall. intros rule Hin%list_elem_of_In.
    rewrite Forall_forall in Htyped. specialize (Htyped rule Hin).
    unfold well_typed_rule in Htyped. unfold rule_reportable, is_number.
    destruct (DataQualityRule.name rule); try discriminate.
    destruct (as_number (DataQualityRule.threshold rule)); [|discriminate].
    cbn [hashable andb]. apply orb_true_r. }
  destruct (validate_rules_last rules [] Hall) as (results & -> & Hresults);
    [intros name; cbn; lia|].
  exists results. split; [done|]. intros name last Hlast.
  specialize (Hresults (VStr name)). unfold last_named in Hlast.
  rewrite (find_ext _ (fun rule => py_eq_str (DataQualityRule.name rule) name)) in Hresults
    by (intros rule; apply key_eqb_str).
  rewrite Hlast in Hresults. destruct Hresults as (key & valid & Hentry & Hvalid).
  apply find_some in Hlast as [Hin _]. apply in_rev in Hin.
  rewrite Forall_forall in Htyped, Hnan.
  specialize (Htyped last). specialize (Hnan last).
  rewrite <- list_elem_of_In in Hin. specialize (Htyped Hin). specialize (Hnan Hin).
  unfold well_typed_rule in Htyped.
  destruct (as_number (DataQualityRule.threshold last)) as [n|] eqn:Hn;
    [|by destruct (DataQualityRule.name last)].
  exists n. split; [done|]. rewrite pydict_get_named, Hentry. cbn [snd].
  rewrite (is_valid_meets_invariant last n Hn) in Hvalid.
  - by injection Hvalid as <-.
  - intros ->. destruct (DataQualityRule.threshold last) as [|[]| |f| | |]; try discriminate.
    injection Hn as ->. done.
Qed.

(** ** More on the connection parameters *)

Lemma collect_params_agree env env' params connection_params missing_params :
  (forall param, In param params -> env !! param = env' !! param) ->
  collect_params env params connection_params missing_params =
  collect_params env' params connection_params missing_params.
Proof.
  revert connection_params missing_params.
  induction params as [|param rest IH]; intros acc missing Hagree; [done|].
  cbn [collect_params]. unfold os_getenv. rewrite <- (Hagree param) by by left.
  destruct (env !! param) as [v|]; [destruct (String.eqb v "")|];
    apply IH; intros p Hp; apply Hagree; by right.
Qed.

(** X13. [get_snowflake_connection_params] reads the five required
    variables and nothing else of the environment: two environments that
    agree on the five give the same outcome, the same mapping or the same
    error, whatever else they hold. *)
Theorem connection_params_frame self env env' :
  (forall param, In param required_params -> env !! param = env' !! param) ->
  get_snowflake_connection_params self env = get_snowflake_connection_params self env'.
Proof.
  intros Hagree. unfold get_snowflake_connection_params.
  by rewrite (collect_params_agree env env' required_params ∅ [] Hagree).
Qed.

Lemma connection_params_frame_witness :
  (forall param,
      In param required_params ->
      example_env !! param = (<["PATH" := "/usr/bin"]> example_env) !! param) /\
  get_snowflake_connection_params default_store (<["PATH" := "/usr/bin"]> example_env) =
    get_snowflake_connection_params default_store example_env.
Proof.
  assert (forall param,
             In param required_params ->
             example_env !! param = (<["PATH" := "/usr/bin"]> example_env) !! param) as Hagree.
  { intros param Hin. simpl in Hin.
    repeat (destruct Hin as [<-|Hin]; [reflexivity|]). destruct Hin. }
  split; [exact Hagree|]. symmetry.
  exact (connection_params_frame default_store example_env _ Hagree).
Defined.

Lemma connection_params_all_set self env :
  missing_variables env = [] ->
  get_snowflake_connection_params self env =
    (db_config <- get_database_config self;;
     Ok (<["database" := DatabaseConfig.name db_config]> (collected env required_params ∅))).
Proof.
  intros Hnone. unfold get_snowflake_connection_params.
  rewrite collect_params_spec. change ([] ++ ?l)%list with l.
  fold (missing_variables env). by rewrite Hnone.
Qed.

(** X14. The environment is checked before the document is read. On a
    store whose [get_database_config] raises (a [database] section without
    [name] or [schemas]), [get_snowflake_connection_params] reports the
    missing variables as long as one of the five is unset, and raises the
    error of [get_database_config] once all five are set: a complete
    environment is not enough for the call to succeed. *)
Theorem connection_error_precedence self env e :
  get_database_config self = Raise e ->
  (missing_variables env <> [] ->
     get_snowflake_connection_params self env =
       Raise (ValueError ("Missing required environment variables: "
                          ++ repr_list (missing_variables env)))) /\
  (missing_variables env = [] -> get_snowflake_connection_params self env = Raise e).
Proof.
  intros Hdb. split.
  - apply connection_params_missing.
  - intros Hnone. by rewrite (connection_params_all_set self env Hnone), Hdb.
Qed.

Lemma connection_error_precedence_witness :
  get_database_config
    {| config_path := "config.yaml";
       config := VDict [ ("database", VDict [ ("name", VStr "TASTY_BYTES") ]) ] |} =
    Raise (KeyError "'schemas'") /\
  missing_variables example_env = [] /\
  get_snowflake_connection_params
    {| config_path := "config.yaml";
       config := VDict [ ("database", VDict [ ("name", VStr "TASTY_BYTES") ]) ] |}
    example_env = Raise (KeyError "'schemas'").
Proof.
  split; [reflexivity|]. split; [reflexivity|].
  destruct (connection_error_precedence
              {| config_path := "config.yaml";
                 config := VDict [ ("database", VDict [ ("name", VStr "TASTY_BYTES") ]) ] |}
              example_env (KeyError "'schemas'")) as [_ Hset]; [reflexivity|].
  apply Hset. reflexivity.
Defined.

(** ** More on updates *)

(** X15. Two updates of the same key compose to the later one: after
    [update_config(section, key, v1)], [update_config(section, key, v2)]
    leaves the store and the file exactly as the second update alone would
    have. In particular an update done twice is the update done once. *)
Theorem update_config_last_wins self fs entries section key v1 v2 :
  config self = VDict entries ->
  (dict_get section entries = None \/
   exists stored, dict_get section entries = Some (VDict stored)) ->
  exists self1 fs1,
    update_config self fs section key v1 = Ok (self1, fs1) /\
    update_config self1 fs1 section key v2 = update_config self fs section key v2.
Proof.
  intros Hc Hshape. rewrite !(update_config_formula self fs entries) by done.
  cbn zeta. eexists _, _. split; [reflexivity|].
  erewrite update_config_formula; [|reflexivity|right; rewrite dict_get_set_eq; by eexists].
  cbn zeta. cbn [config_path].
  by rewrite stored_section_set, !dict_set_set, insert_insert_eq.
Qed.

Lemma update_config_last_wins_witness :
  (exists stored, dict_get "pipeline" default_entries = Some (VDict stored)) /\
  exists self1 fs1,
    update_config default_store default_files "pipeline" "retries" (VInt 1) = Ok (self1, fs1) /\
    update_config self1 fs1 "pipeline" "retries" (VInt 3) =
      update_config default_store default_files "pipeline" "retries" (VInt 3).
Proof.
  split; [by eexists|].
  apply (update_config_last_wins default_store default_files default_entries);
    [reflexivity | right; by eexists].
Defined.

(** X16. [update_config] keeps the document in order and its keys distinct:
    a section or a key that exists keeps its place and a new one goes last,
    in the document and in the mapping of the section. Nothing is removed:
    the keys before are all there after. *)
Theorem update_config_keeps_order self fs entries section key v :
  config self = VDict entries ->
  (dict_get section entries = None \/
   exists stored, dict_get section entries = Some (VDict stored)) ->
  exists self' fs' entries' stored',
    update_config self fs section key v = Ok (self', fs') /\
    config self' = VDict entries' /\
    dict_get section entries' = Some (VDict stored') /\
    dict_keys entries' =
      (if dict_mem section entries then dict_keys entries
       else (dict_keys entries ++ [section])%list) /\
    dict_keys stored' =
      (if dict_mem key (stored_section section entries)
       then dict_keys (stored_section section entries)
       else (dict_keys (stored_section section entries) ++ [key])%list) /\
    (NoDup (dict_keys entries) -> NoDup (dict_keys entries')) /\
    (NoDup (dict_keys (stored_section section entries)) -> NoDup (dict_keys stored')).
Proof.
  intros Hc Hshape. rewrite (update_config_formula self fs entries) by done. cbn zeta.
  eexists _, _, _, _. split; [reflexivity|]. split; [reflexivity|].
  split; [apply dict_get_set_eq|]. split; [apply dict_keys_set|].
  split; [apply dict_keys_set|]. split; apply dict_set_NoDup.
Qed.

Lemma update_config_keeps_order_witness :
  dict_get "monitoring" default_entries = None /\
  exists self' fs' entries',
    update_config default_store default_files "monitoring" "enabled" (VBool true) =
      Ok (self', fs') /\
    config self' = VDict entries' /\
    dict_keys entries' =
      [ "database"; "data_sources"; "data_quality"; "pipeline"; "monitoring" ].
Proof.
  split; [reflexivity|].
  destruct (update_config_keeps_order default_store default_files default_entries
              "monitoring" "enabled" (VBool true))
    as (self' & fs' & entries' & stored' & Hupdate & Hconfig & _ & Hkeys & _);
    [reflexivity | by left |].
  by exists self', fs', entries'.
Defined.

(** X17. A section that exists and is not a mapping is not replaced by
    one: [update_config] on it raises [TypeError], be the section [None], a
    boolean, a number, a string or a list. *)
Theorem update_config_not_a_mapping self fs entries section key v other :
  config self = VDict entries ->
  dict_get section entries = Some other ->
  (forall stored, other <> VDict stored) ->
  exists message, update_config self fs section key v = Raise (TypeError message).
Proof.
  intros Hc Hsection Hother. unfold update_config. rewrite Hc.
  cbn [py_in bind]. unfold dict_mem. rewrite Hsection.
  cbn [negb py_getitem bind]. rewrite Hsection. cbn [bind].
  destruct other as [| | | | | |stored]; try by eexists. by destruct (Hother stored).
Qed.

Lemma update_config_not_a_mapping_witness :
  dict_get "monitoring" [ ("monitoring", VNone) ] = Some VNone /\
  exists message,
    update_config {| config_path := "config.yaml"; config := VDict [ ("monitoring", VNone) ] |}
      ∅ "monitoring" "enabled" (VBool true) = Raise (TypeError message).
Proof.
  split; [reflexivity|].
  by apply (update_config_not_a_mapping _ _ [ ("monitoring", VNone) ] _ _ _ VNone).
Defined.




(** ** The default document and the example run *)

Lemma init_default logmod fs path :
  __init__ logmod (create_default_config fs path) path =
    Ok {| config_path := path; config := sort_keys default_config |}.
Proof.
  unfold create_default_config, default_config. rewrite init_of_dumped.
  - rewrite (setup_logging_level logmod default_entries
               [ ("stages",
                   VDict [ ("ingestion",
                             VDict [ ("batch_size", VInt 10000);
                                     ("parallel_workers", VInt 4) ]) ]);
                 ("logging", VDict [ ("level", VStr "INFO") ]) ]
               [ ("level", VStr "INFO") ]) by reflexivity.
    cbn [dict_get String.eqb Ascii.eqb Bool.eqb from_option id]. unfold logging_getattr.
    cbn [level_constant String.eqb Ascii.eqb Bool.eqb]. by rewrite basicConfig_level.
  - intros section Hin. simpl in Hin.
    repeat (destruct Hin as [<-|Hin]; [by eexists|]). destruct Hin.
Qed.

(** X19. The default document is one the loader accepts: whatever the file
    system held and whatever the state of the [logging] module, after
    [create_default_config(path)] a store is constructed from [path]. It
    holds the default document as the file has it, the keys of every mapping
    in sorted order; its one rule is reported valid, its summary counts one
    data-quality rule, one data source and one stage, and no other file has
    been touched. *)
Theorem default_config_loads logmod fs path :
  __init__ logmod (create_default_config fs path) path =
    Ok {| config_path := path; config := sort_keys default_config |} /\
  sort_keys default_config =
    VDict
      [ ("data_quality",
          VDict [ ("validation_rules",
                    VList [ VDict [ ("critical", VBool true);
                                    ("name", VStr "null_check");
                                    ("threshold", VInt 95);
                                    ("type", VStr "completeness") ] ]) ]);
        ("data_sources",
          VDict [ ("weather_data",
                    VDict [ ("refresh_frequency", VStr "daily");
                            ("retention_days", VInt 365);
                            ("schema", VStr "harmonized");
                            ("table", VStr "weather_hamburg") ]) ]);
        ("database",
          VDict [ ("name", VStr "TASTY_BYTES");
                  ("schemas", VDict [ ("analytics", VStr "ANALYTICS");
                                      ("harmonized", VStr "HARMONIZED");
                                      ("raw", VStr "RAW_DATA") ]) ]);
        ("pipeline",
          VDict [ ("logging", VDict [ ("level", VStr "INFO") ]);
                  ("stages",
                    VDict [ ("ingestion",
                              VDict [ ("batch_size", VInt 10000);
                                      ("parallel_workers", VInt 4) ]) ]) ]) ] /\
  validate_data_quality_thresholds
    {| config_path := path; config := sort_keys default_config |} =
    Ok [ (VStr "null_check", true) ] /\
  get_config_summary {| config_path := path; config := sort_keys default_config |} =
    Ok [ ("database", VStr "TASTY_BYTES");
         ("data_sources", VList [ VStr "weather_data" ]);
         ("data_quality_rules", VInt 1);
         ("pipeline_stages", VList [ VStr "ingestion" ]);
         ("monitoring_enabled", VBool false);
         ("config_file", VStr path) ] /\
  (forall other, other <> path -> create_default_config fs path !! other = fs !! other).
Proof.
  split; [apply init_default|]. split; [reflexivity|]. split; [reflexivity|].
  split; [reflexivity|].
  intros other Hother. unfold create_default_config. by rewrite lookup_insert_ne.
Qed.

Lemma init_later logmod logmod' fs path self :
  later_logging logmod logmod' ->
  __init__ logmod fs path = Ok self ->
  __init__ logmod' fs path = Ok self.
Proof.
  intros Hlater Hinit.
  destruct (init_Ok _ _ _ _ Hinit) as (entries & level & -> & Hfile & Hmissing & Hlogging).
  rewrite (init_with_sections logmod' fs path entries Hfile)
    by by apply first_missing_None.
  by rewrite (setup_logging_later logmod logmod' (VDict entries) level Hlater Hlogging).
Qed.

Lemma example_usage_later logmod logmod' fs outcome :
  later_logging logmod logmod' ->
  example_usage logmod fs = Ok outcome ->
  example_usage logmod' fs = Ok outcome.
Proof.
  intros Hlater. unfold example_usage.
  destruct (__init__ logmod fs "config.yaml") as [config_manager|] eqn:Hinit; [|discriminate].
  by rewrite (init_later logmod logmod' fs "config.yaml" config_manager Hlater Hinit).
Qed.

(** X20. The example run repairs and then leaves alone. Whatever the file
    system holds, after one run of the [__main__] block the body of its
    [try] succeeds on the result, so a second run changes nothing, in the
    same process or in another; a run
    whose [try] succeeds changes nothing either, and a run never touches a
    file other than [config.yaml]. The repair is a replacement: when the
    [try] raises, for whatever reason, [config.yaml] becomes the dump of the
    default document. *)
Theorem main_repairs_once logmod fs :
  (exists outcome, example_usage logmod (main logmod fs) = Ok outcome) /\
  main logmod (main logmod fs) = main logmod fs /\
  (forall logmod', later_logging logmod logmod' -> main logmod' (main logmod fs) = main logmod fs) /\
  (forall outcome, example_usage logmod fs = Ok outcome -> main logmod fs = fs) /\
  (forall e, example_usage logmod fs = Raise e ->
             main logmod fs !! "config.yaml" = Some (yaml_dump default_config)) /\
  (forall other, other <> "config.yaml" -> main logmod fs !! other = fs !! other).
Proof.
  assert (exists outcome,
             example_usage logmod (create_default_config fs "config.yaml") = Ok outcome)
    as Hdefault.
  { unfold example_usage. rewrite init_default. by eexists. }
  assert (exists outcome, example_usage logmod (main logmod fs) = Ok outcome) as Hmain.
  { unfold main. destruct (example_usage logmod fs) as [outcome|e] eqn:Hrun; [by eexists|done]. }
  split; [done|]. split; [|split; [|split; [|split]]].
  - destruct Hmain as [outcome Hmain]. unfold main at 1. by rewrite Hmain.
  - intros logmod' Hlater. destruct Hmain as [outcome Hmain]. unfold main at 1.
    by rewrite (example_usage_later logmod logmod' _ outcome Hlater Hmain).
  - intros outcome Hrun. unfold main. by rewrite Hrun.
  - intros e Hrun. unfold main, create_default_config. rewrite Hrun.
    apply lookup_insert_eq.
  - intros other Hother. unfold main, create_default_config.
    destruct (example_usage logmod fs); [done|]. by rewrite lookup_insert_ne.
Qed.

(** ** The dashboard *)

Lemma without_unit_eqb a b :
  In a (map fst enhanced_streamlit.weather_metrics) ->
  In b (map fst enhanced_streamlit.weather_metrics) ->
  String.eqb (enhanced_streamlit.without_unit a) (enhanced_streamlit.without_unit b) =
  String.eqb a b.
Proof.
  simpl. intros Ha Hb.
  repeat (destruct Ha as [<-|Ha]; [|]); try destruct Ha;
    repeat (destruct Hb as [<-|Hb]; [|]); try destruct Hb; reflexivity.
Qed.

Lemma existsb_without_unit name selected_metrics :
  In name (map fst enhanced_streamlit.weather_metrics) ->
  Forall (fun metric => In metric (map fst enhanced_streamlit.weather_metrics))
    selected_metrics ->
  existsb (String.eqb (enhanced_streamlit.without_unit name))
    (map enhanced_streamlit.without_unit selected_metrics) =
  existsb (String.eqb name) selected_metrics.
Proof.
  intros Hname. induction 1 as [|metric rest Hmetric _ IH]; [done|].
  cbn [map existsb]. by rewrite IH, without_unit_eqb.
Qed.

(** X21. The scatter plots of the correlations tab are those of the
    selected metrics: for a selection made among the three labels the
    multiselect offers, a plot is drawn for a metric exactly when its label
    is selected, and the plots come in the order of [weather_metrics],
    whatever the order of the selection. Comparing the labels with their
    unit taken off does not confuse two of them. *)
Theorem scatter_metrics_selected selected_metrics :
  Forall (fun metric => In metric (map fst enhanced_streamlit.weather_metrics))
    selected_metrics ->
  enhanced_streamlit.scatter_metrics selected_metrics =
    List.filter (fun '(metric_name, _) => existsb (String.eqb metric_name) selected_metrics)
      enhanced_streamlit.weather_metrics /\
  (forall metric_name metric_col,
      In (metric_name, metric_col) (enhanced_streamlit.scatter_metrics selected_metrics) <->
      In (metric_name, metric_col) enhanced_streamlit.weather_metrics /\
      In metric_name selected_metrics).
Proof.
  intros Hselected.
  assert (enhanced_streamlit.scatter_metrics selected_metrics =
          List.filter
            (fun '(metric_name, _) => existsb (String.eqb metric_name) selected_metrics)
            enhanced_streamlit.weather_metrics) as Hfilter.
  { unfold enhanced_streamlit.scatter_metrics, enhanced_streamlit.weather_metrics.
    cbn [List.filter].
    rewrite !(existsb_without_unit _ selected_metrics) by (done || (simpl; tauto)).
    done. }
  split; [done|]. intros metric_name metric_col. rewrite Hfilter, filter_In.
  split; intros [Hin Hsel]; (split; [done|]).
  - apply existsb_exists in Hsel as (metric & Hmetric & ->%String.eqb_eq). done.
  - apply existsb_exists. exists metric_name. split; [done|apply String.eqb_refl].
Qed.

Lemma scatter_metrics_selected_witness :
  Forall (fun metric => In metric (map fst enhanced_streamlit.weather_metrics))
    [ "Wind Speed (mph)"; "Temperature (°F)" ] /\
  enhanced_streamlit.scatter_metrics [ "Wind Speed (mph)"; "Temperature (°F)" ] =
    [ ("Temperature (°F)", "AVG_TEMPERATURE_FAHRENHEIT");
      ("Wind Speed (mph)", "MAX_WIND_SPEED_100M_MPH") ].
Proof.
  assert (Forall (fun metric => In metric (map fst enhanced_streamlit.weather_metrics))
            [ "Wind Speed (mph)"; "Temperature (°F)" ]) as Hselected
    by (repeat constructor; simpl; tauto).
  split; [exact Hselected|].
  destruct (scatter_metrics_selected _ Hselected) as [-> _]. reflexivity.
Defined.
